(** * md_translate: the block model, its renderer, its codec and the
      per-file driver

    A shallow embedding of [md_translate/document/_blocks.py] and of
    [md_translate/application.py].

    Conventions.
    - pydantic is the 1.x line, whose [root_validator] and [validator]
      the module uses.
    - A Python [str] is a Rocq [string]; one [ascii] stands for one
      character (code points below 256), so [length] and iteration agree
      with Python's.
    - An [int] is a [Z] (Python integers are unbounded).
    - A call that may raise returns an [outcome]: [Return v] or [Raise e].
    - A block instance is a value of the sum type [block], one constructor
      per class of the module, with the fields the class declares. *)

From Stdlib Require Import ZArith String Ascii List Bool Lia DecimalString.
Import ListNotations.

Set Warnings "-register-all".

Local Open Scope list_scope.
Local Open Scope string_scope.

(* ================================================================== *)
(** ** Exceptions and outcomes *)

(** The classes of the module, by name. *)
Inductive cls : Type :=
| CBaseBlock | CTranslatable | CRawDataBlock | CTextBlock | CLinkBlock
| CImageBlock | CHeadingBlock | CSeparatorBlock | CCodeBlock | CHtmlBlock
| CListItemBlock | CListBlock.

(** Plain Python data, as it is read from a cache file or produced by
    [dict()]: [None], booleans, integers, strings, lists and dicts with
    string keys (an association list: the first binding of a key is the
    one a lookup sees), and the class object [str], which [ImageBlock]
    uses as the default of [alt]. *)
Inductive pyval : Type :=
| PNone
| PBool (b : bool)
| PInt (z : Z)
| PStr (s : string)
| PStrClass
| PList (l : list pyval)
| PDict (d : list (string * pyval)).

Definition pydict : Type := list (string * pyval).

Inductive exc : Type :=
| NotImplementedError
| TypeError (msg : string)
| UnknownBlockType (block_type : pyval)   (* ValueError('Unknown Block Type: %s', block_type) *)
| ValidationError (c : cls)               (* pydantic.ValidationError, a ValueError *)
| IndexError
| PathValueError                          (* ValueError of Path.relative_to *)
| ClickException (msg : string)
| OtherException (name : string)          (* any other subclass of Exception *)
| BaseExceptionOnly (name : string).      (* KeyboardInterrupt, SystemExit, ... *)

Inductive outcome (A : Type) : Type :=
| Return (a : A)
| Raise (e : exc).
Arguments Return {A} a.
Arguments Raise {A} e.

Definition bind {A B} (m : outcome A) (k : A -> outcome B) : outcome B :=
  match m with
  | Return a => k a
  | Raise e => Raise e
  end.

Notation "x <- m ;; k" := (bind m (fun x => k))
  (at level 61, m at next level, right associativity).

(** [[f(x) for x in l]], stopping at the first element that raises. *)
Definition mapM {A B} (f : A -> outcome B) : list A -> outcome (list B) :=
  fix go (l : list A) : outcome (list B) :=
    match l with
    | [] => Return []
    | x :: l' => y <- f x ;; ys <- go l' ;; Return (y :: ys)
    end.

(* ================================================================== *)
(** ** Strings *)

(** The line feed, ['\n']. *)
Definition newline : string := String "010"%char "".

(** [sep.join(l)] on a list of strings. *)
Fixpoint join (sep : string) (l : list string) : string :=
  match l with
  | [] => ""
  | [s] => s
  | s :: l' => s ++ sep ++ join sep l'
  end.

(** [s * n] *)
Fixpoint repeat_str (s : string) (n : nat) : string :=
  match n with
  | O => ""
  | S n' => s ++ repeat_str s n'
  end.

(** [str(z)] for an [int]. *)
Definition str_of_Z (z : Z) : string := NilZero.string_of_int (Z.to_int z).

(** [str(b)] for a [bool]. *)
Definition str_of_bool (b : bool) : string := if b then "True" else "False".

(** [str(o)] for an optional string: [None] prints as ["None"]. *)
Definition str_of_opt (o : option string) : string :=
  match o with
  | Some s => s
  | None => "None"
  end.

(** [needle in s] for strings. *)
Fixpoint prefixb (p s : string) : bool :=
  match p, s with
  | EmptyString, _ => true
  | String a p', String b s' => Ascii.eqb a b && prefixb p' s'
  | String _ _, EmptyString => false
  end.

Fixpoint contains (needle s : string) : bool :=
  prefixb needle s ||
  match s with
  | EmptyString => false
  | String _ s' => contains needle s'
  end.

(* ================================================================== *)
(** ** The block model *)

(** The payload of [RawDataBlock.data] (annotated [Any]); the scalars of
    Python are represented. *)
Inductive scalar : Type :=
| SNone
| SBool (b : bool)
| SInt (z : Z)
| SStr (s : string).

(** The value of [ImageBlock.alt]: a string, or the declared default
    [pydantic.Field(default=str)], which is the class [str] itself. *)
Inductive alt_value : Type :=
| Alt (s : string)
| AltStrClass.

Inductive block : Type :=
| BaseBlock
| Translatable (text : string) (translated_text : option string)
| RawDataBlock (name : string) (data : scalar)
| TextBlock (text : string) (translated_text : option string)
            (strong emphasis : bool)
| LinkBlock (link : string) (title : option string)
            (text : option (list block))
| ImageBlock (src : string) (alt : alt_value) (title : option string)
| HeadingBlock (text : string) (translated_text : option string) (level : Z)
| SeparatorBlock
| CodeBlock (code : string) (language : option string)
| HtmlBlock (code : string)
| ListItemBlock (children : list block)
| ListBlock (children : list block) (ordered : bool).

Definition class_of (b : block) : cls :=
  match b with
  | BaseBlock => CBaseBlock
  | Translatable _ _ => CTranslatable
  | RawDataBlock _ _ => CRawDataBlock
  | TextBlock _ _ _ _ => CTextBlock
  | LinkBlock _ _ _ => CLinkBlock
  | ImageBlock _ _ _ => CImageBlock
  | HeadingBlock _ _ _ => CHeadingBlock
  | SeparatorBlock => CSeparatorBlock
  | CodeBlock _ _ => CCodeBlock
  | HtmlBlock _ => CHtmlBlock
  | ListItemBlock _ => CListItemBlock
  | ListBlock _ _ => CListBlock
  end.

Definition class_name (c : cls) : string :=
  match c with
  | CBaseBlock => "BaseBlock"
  | CTranslatable => "Translatable"
  | CRawDataBlock => "RawDataBlock"
  | CTextBlock => "TextBlock"
  | CLinkBlock => "LinkBlock"
  | CImageBlock => "ImageBlock"
  | CHeadingBlock => "HeadingBlock"
  | CSeparatorBlock => "SeparatorBlock"
  | CCodeBlock => "CodeBlock"
  | CHtmlBlock => "HtmlBlock"
  | CListItemBlock => "ListItemBlock"
  | CListBlock => "ListBlock"
  end.

(** [IS_TRANSLATABLE], the class attribute. *)
Definition IS_TRANSLATABLE (c : cls) : bool :=
  match c with
  | CTextBlock | CLinkBlock | CImageBlock => true
  | _ => false
  end.

(** The classes that inherit the mixin [Translatable]. *)
Definition inherits_Translatable (c : cls) : bool :=
  match c with
  | CTranslatable | CTextBlock | CHeadingBlock => true
  | _ => false
  end.

(** The attribute [translated_text], for the classes that declare it. *)
Definition translated_text_of (b : block) : option (option string) :=
  match b with
  | Translatable _ tr | TextBlock _ tr _ _ | HeadingBlock _ tr _ => Some tr
  | _ => None
  end.

(** The node carries the attribute [translated_text], and it is [None]. *)
Definition translated_text_is_None (b : block) : bool :=
  match translated_text_of b with
  | Some None => true
  | _ => false
  end.

(* ------------------------------------------------------------------ *)
(** *** [should_be_translated] *)

(** [BaseBlock.should_be_translated] returns [False];
    [Translatable.should_be_translated] returns
    [self.translated_text is None], and comes first in the method
    resolution order of [TextBlock] and [HeadingBlock]. *)
Definition should_be_translated (b : block) : bool :=
  match b with
  | Translatable _ tr | TextBlock _ tr _ _ | HeadingBlock _ tr _ =>
      match tr with None => true | Some _ => false end
  | _ => false
  end.

(* ------------------------------------------------------------------ *)
(** *** [__str__] *)

Definition str_of_scalar (d : scalar) : string :=
  match d with
  | SNone => "None"
  | SBool b => str_of_bool b
  | SInt z => str_of_Z z
  | SStr s => s
  end.

Definition str_of_alt (a : alt_value) : string :=
  match a with
  | Alt s => s
  | AltStrClass => "<class 'str'>"
  end.

(** [enumerate(l, start)]; the code calls it with the default start, 0. *)
Fixpoint enumerate_from {A} (start : Z) (l : list A) : list (Z * A) :=
  match l with
  | [] => []
  | x :: l' => (start, x) :: enumerate_from (start + 1) l'
  end.

Definition enumerate {A} (l : list A) : list (Z * A) := enumerate_from 0 l.

(** The marker in front of a list item:
    [f"{counter}." if self.ordered else "*"]. *)
Definition item_marker (ordered : bool) (counter : Z) : string :=
  if ordered then str_of_Z counter ++ "." else "*".

(** One line of [ListBlock.__str__]: [f'{marker} {str(item)}']. *)
Definition item_line (ordered : bool) (p : Z * string) : string :=
  item_marker ordered (fst p) ++ " " ++ snd p.

(** [" ".join(map(str, self.text)) or self.title], then [str] of it. *)
Definition link_label (joined : string) (title : option string) : string :=
  match joined with
  | EmptyString => str_of_opt title
  | _ => joined
  end.

(** A repetition count fits an index: [s * n] raises [OverflowError]
    for [n] outside the range of a signed 64-bit integer (a count of
    zero or below gives the empty string). Memory is taken as
    unbounded. *)
Definition fits_index (n : Z) : bool :=
  ((- 2 ^ 63 <=? n) && (n <? 2 ^ 63))%Z.

(** [str(block)]: the [__str__] of the block's class. *)
Fixpoint render (b : block) : outcome string :=
  match b with
  | BaseBlock => Raise NotImplementedError
  | Translatable text translated_text =>
      match translated_text with
      | None =>
          (* '\n\n'.join([self.text, None]) *)
          Raise (TypeError "sequence item 1: expected str instance, NoneType found")
      | Some _ => Return text
      end
  | RawDataBlock _ data => Return (str_of_scalar data)
  | TextBlock text _ strong emphasis =>
      if strong then Return ("**" ++ text ++ "**")
      else if emphasis then Return ("*" ++ text ++ "*")
      else Return text
  | LinkBlock link title text =>
      match text with
      | None => Raise (TypeError "'NoneType' object is not iterable")
      | Some items =>
          strs <- mapM render items ;;
          Return ("[" ++ link_label (join " " strs) title ++ "](" ++ link ++ ")")
      end
  | ImageBlock src alt _ =>
      Return ("![" ++ str_of_alt alt ++ "](" ++ src ++ ")")
  | HeadingBlock text _ level =>
      if fits_index level
      then Return (repeat_str "#" (Z.to_nat level) ++ " " ++ text)
      else Raise (OtherException "OverflowError")
  | SeparatorBlock => Return "---"
  | CodeBlock code language =>
      let lang := match language with
                  | Some (String a l) => String a l
                  | _ => ""
                  end in
      Return ("```" ++ lang ++ newline ++ code ++ newline ++ "```")
  | HtmlBlock code => Return code
  | ListItemBlock children =>
      strs <- mapM render children ;;
      Return (join "" strs)
  | ListBlock children ordered =>
      strs <- mapM render children ;;
      Return (join newline (map (item_line ordered) (enumerate strs)))
  end.



(** A list item holding one plain text. *)
Definition plain_item (text : string) : block :=
  ListItemBlock [TextBlock text None false false].

(* ================================================================== *)
(** ** The codec: [dict] and [validate] *)

(** *** Encoding *)

Definition plain_of_opt (o : option string) : pyval :=
  match o with
  | Some s => PStr s
  | None => PNone
  end.

Definition plain_of_scalar (d : scalar) : pyval :=
  match d with
  | SNone => PNone
  | SBool b => PBool b
  | SInt z => PInt z
  | SStr s => PStr s
  end.

Definition plain_of_alt (a : alt_value) : pyval :=
  match a with
  | Alt s => PStr s
  | AltStrClass => PStrClass
  end.

(** [data['block_type'] = self.__class__.__name__] *)
Definition tagged (c : cls) (data : pydict) : pyval :=
  PDict (data ++ [("block_type", PStr (class_name c))])%list.

(** [BaseBlock.dict]: pydantic's [dict()] lists the fields in declaration
    order and converts nested models with their own [dict], which for the
    subclasses of [BaseBlock] is this method again. [Translatable] itself
    is a plain pydantic model and gets no [block_type]. *)
Fixpoint dict (b : block) : pyval :=
  match b with
  | BaseBlock => tagged CBaseBlock []
  | Translatable text translated_text =>
      PDict [("text", PStr text);
             ("translated_text", plain_of_opt translated_text)]
  | RawDataBlock name data =>
      tagged CRawDataBlock [("name", PStr name); ("data", plain_of_scalar data)]
  | TextBlock text translated_text strong emphasis =>
      tagged CTextBlock
        [("text", PStr text); ("translated_text", plain_of_opt translated_text);
         ("strong", PBool strong); ("emphasis", PBool emphasis)]
  | LinkBlock link title text =>
      tagged CLinkBlock
        [("link", PStr link); ("title", plain_of_opt title);
         ("text", match text with
                  | None => PNone
                  | Some items => PList (map dict items)
                  end)]
  | ImageBlock src alt title =>
      tagged CImageBlock
        [("src", PStr src); ("alt", plain_of_alt alt);
         ("title", plain_of_opt title)]
  | HeadingBlock text translated_text level =>
      tagged CHeadingBlock
        [("text", PStr text); ("translated_text", plain_of_opt translated_text);
         ("level", PInt level)]
  | SeparatorBlock => tagged CSeparatorBlock []
  | CodeBlock code language =>
      tagged CCodeBlock [("code", PStr code); ("language", plain_of_opt language)]
  | HtmlBlock code => tagged CHtmlBlock [("code", PStr code)]
  | ListItemBlock children =>
      tagged CListItemBlock [("children", PList (map dict children))]
  | ListBlock children ordered =>
      tagged CListBlock
        [("children", PList (map dict children)); ("ordered", PBool ordered)]
  end.

(** *** Dictionaries *)

(** [d.get(key)] *)
Fixpoint get (key : string) (d : pydict) : option pyval :=
  match d with
  | [] => None
  | (k, v) :: d' => if String.eqb k key then Some v else get key d'
  end.

(** [d.get(key)] followed by [f] on the value found. *)
Definition get_with {R} (key : string) (f : pyval -> R) : pydict -> option R :=
  fix go (d : pydict) : option R :=
    match d with
    | [] => None
    | (k, v) :: d' => if String.eqb k key then Some (f v) else go d'
    end.

(** [key in d] *)
Definition has_key (key : string) (d : pydict) : bool :=
  match get key d with Some _ => true | None => false end.

(** The dict left by [d.pop(key)]. *)
Fixpoint remove (key : string) (d : pydict) : pydict :=
  match d with
  | [] => []
  | (k, v) :: d' =>
      if String.eqb k key then remove key d' else (k, v) :: remove key d'
  end.

(** [bool(v)] *)
Definition truthy (v : pyval) : bool :=
  match v with
  | PNone => false
  | PBool b => b
  | PInt z => negb (Z.eqb z 0)
  | PStr s => negb (String.eqb s "")
  | PStrClass => true
  | PList l => match l with [] => false | _ => true end
  | PDict d => match d with [] => false | _ => true end
  end.

(** The characters of a string, each as a string of length one. *)
Fixpoint chars (s : string) : list string :=
  match s with
  | EmptyString => []
  | String a s' => String a "" :: chars s'
  end.

(** *** The module's namespace *)

(** What a name of [globals()] is bound to: one of the module's classes,
    a [typing] form, the module [pydantic], or a value of the module's
    own bookkeeping ([__name__], [__file__], ...). Only a class can be
    called with keyword arguments. *)
Inductive global : Type :=
| GClass (c : cls)
| GTyping
| GModule
| GData.

Definition classes : list cls :=
  [CBaseBlock; CTranslatable; CRawDataBlock; CTextBlock; CLinkBlock;
   CImageBlock; CHeadingBlock; CSeparatorBlock; CCodeBlock; CHtmlBlock;
   CListItemBlock; CListBlock].

(** [globals()] of [_blocks.py], by name. *)
Definition module_globals : list (string * global) :=
  [("__name__", GData); ("__doc__", GData); ("__package__", GData);
   ("__loader__", GData); ("__spec__", GData); ("__file__", GData);
   ("__cached__", GData); ("__builtins__", GData);
   ("Any", GTyping); ("ClassVar", GTyping); ("Dict", GTyping);
   ("List", GTyping); ("Optional", GTyping);
   ("pydantic", GModule)]
  ++ map (fun c => (class_name c, GClass c)) classes.

Fixpoint lookup_global_in (gs : list (string * global)) (name : string)
  : option global :=
  match gs with
  | [] => None
  | (k, g) :: gs' => if String.eqb k name then Some g else lookup_global_in gs' name
  end.

Definition lookup_global : string -> option global :=
  lookup_global_in module_globals.

(** The concrete block kinds: the classes of the module that are neither
    the abstract base nor the mixin. *)
Definition concrete_kind (c : cls) : bool :=
  match c with
  | CBaseBlock | CTranslatable => false
  | _ => true
  end.

(** A discriminant names a block kind. *)
Definition names_block_kind (block_type : string) : bool :=
  existsb (fun c => concrete_kind c && String.eqb (class_name c) block_type)
          classes.

(** *** pydantic's validation of the declared fields *)

(** Two builtins whose definition lies outside the module are taken as
    they are: [int(s)] on a string, and [repr] of a list or dict. *)
Record builtins : Type := {
  py_int : string -> option Z;
  py_repr : pyval -> string
}.

(** What a decoded child is: a block instance; an instance of class [c]
    whose [field] holds values that are not what the field is annotated
    with (pydantic builds it all the same, see [block_elements]); or the
    plain value itself. *)
Inductive child : Type :=
| Inst (b : block)
| Loose (c : cls) (field : string) (held : list child)
| Plain (v : pyval).

(** [s.lower()], on the letters A-Z; this decides membership in the sets
    of [bool_validator], whose members are ASCII. *)
Definition lower_ascii (a : ascii) : ascii :=
  let n := nat_of_ascii a in
  if (65 <=? n)%nat && (n <=? 90)%nat then ascii_of_nat (n + 32) else a.

Fixpoint lower (s : string) : string :=
  match s with
  | EmptyString => EmptyString
  | String a s' => String (lower_ascii a) (lower s')
  end.

Definition mem (s : string) (l : list string) : bool :=
  existsb (String.eqb s) l.

Definition BOOL_TRUE : list string := ["1"; "on"; "t"; "true"; "y"; "yes"].
Definition BOOL_FALSE : list string := ["0"; "off"; "f"; "false"; "n"; "no"].

(** All the elements are present. *)
Fixpoint all_some {A} (l : list (option A)) : option (list A) :=
  match l with
  | [] => Some []
  | None :: _ => None
  | Some a :: l' =>
      match all_some l' with
      | Some r => Some (a :: r)
      | None => None
      end
  end.

(** All the children are block instances. *)
Definition as_blocks (l : list child) : option (list block) :=
  all_some (map (fun c => match c with Inst b => Some b | _ => None end) l).

Section Fields.

Variable B : builtins.

Definition py_str (v : pyval) : string :=
  match v with
  | PNone => "None"
  | PBool b => str_of_bool b
  | PInt z => str_of_Z z
  | PStr s => s
  | PStrClass => "<class 'str'>"
  | PList _ | PDict _ => py_repr B v
  end.

Definition str_validator (v : pyval) : option string :=
  match v with
  | PStr s => Some s
  | PInt z => Some (str_of_Z z)
  | PBool b => Some (str_of_bool b)
  | _ => None
  end.

Definition bool_validator (v : pyval) : option bool :=
  match v with
  | PBool b => Some b
  | PInt 1 => Some true
  | PInt 0 => Some false
  | PStr s =>
      if mem (lower s) BOOL_TRUE then Some true
      else if mem (lower s) BOOL_FALSE then Some false
      else None
  | _ => None
  end.

Definition int_validator (v : pyval) : option Z :=
  match v with
  | PInt z => Some z
  | PBool b => Some (if b then 1 else 0)%Z
  | PStr s => py_int B s
  | _ => None
  end.

(** A field without a default: a missing value and [None] are errors. *)
Definition required {A} (validator : pyval -> option A) (x : option pyval)
  : option A :=
  match x with
  | None | Some PNone => None
  | Some v => validator v
  end.

(** A field annotated [Optional[...] = None]. *)
Definition optional {A} (validator : pyval -> option A) (x : option pyval)
  : option (option A) :=
  match x with
  | None | Some PNone => Some None
  | Some v => option_map Some (validator v)
  end.

(** A field with a default that is not [None]: [None] is an error. *)
Definition defaulted {A} (default : A) (validator : pyval -> option A)
           (x : option pyval) : option A :=
  match x with
  | None => Some default
  | Some PNone => None
  | Some v => validator v
  end.

(** [TextBlock.validate_text], which runs before the validation of
    [text]: a list is joined. *)
Definition validate_text (value : pyval) : pyval :=
  match value with
  | PList l => PStr (join "" (map py_str l))
  | _ => value
  end.

(** [Translatable] called with keyword arguments: a plain pydantic
    model, no root validator. *)
Definition Translatable_fields (kwargs : pydict) : option block :=
  match required str_validator (get "text" kwargs),
        optional str_validator (get "translated_text" kwargs) with
  | Some text, Some translated_text => Some (Translatable text translated_text)
  | _, _ => None
  end.

(** [dict(l)] for a list [l]: each element is a sequence of two items,
    key first; keyword arguments need string keys. The result lists
    the later pairs first, so that they win. *)
Definition pair_of (v : pyval) : option (string * pyval) :=
  match v with
  | PList [PStr k; x] => Some (k, x)
  | PStr (String a (String b EmptyString)) =>
      Some (String a "", PStr (String b ""))
  | PDict [(k1, _); (k2, _)] => Some (k1, PStr k2)
  | _ => None
  end.

Definition dict_of_pairs (l : list pyval) : option pydict :=
  option_map (@rev _) (all_some (map pair_of l)).

(** pydantic's own [BaseModel.validate] for an element of
    [ListItemBlock.children : List[Translatable]]: an instance of
    [Translatable] or of a subclass is kept, anything else is turned
    into keyword arguments for [Translatable]. No other class of the
    module has a string field [text], so their instances are refused. *)
Definition Translatable_element (c : child) : option child :=
  match c with
  | Inst b => if inherits_Translatable (class_of b) then Some (Inst b) else None
  | Loose _ _ _ => None
  | Plain (PDict kwargs) => option_map Inst (Translatable_fields kwargs)
  | Plain (PList l) =>
      match dict_of_pairs l with
      | Some kwargs => option_map Inst (Translatable_fields kwargs)
      | None => None
      end
  | Plain _ => None
  end.

(** An element of a field annotated with a subclass of [BaseBlock]
    ([ListBlock.children], [LinkBlock.text]). The root validator of
    [BaseBlock] is named [validate] and so replaces pydantic's
    [BaseModel.validate] as the validator of such a value: [None] is
    refused, a dict goes through [validate] (the second component says
    what that call does) and stays a dict, an instance is kept and so is
    anything else. The call rewrites the ['children'] of such a dict in
    place; the value held here is the dict as it came. *)
Definition block_element (p : child * outcome unit) : option child :=
  match p with
  | (Plain PNone, _) => None
  | (c, Return _) => Some c
  | (_, Raise _) => None
  end.

Definition block_elements (l : list (child * outcome unit))
  : option (list child) :=
  all_some (map block_element l).

(** The value of a list field when [validate] left it alone: it was
    missing or falsy, and only the empty list is a list. *)
Definition unparsed_list (x : option pyval) : option (list child) :=
  match x with
  | Some (PList []) => Some []
  | _ => None
  end.

(** The instance, once its list field is validated. *)
Definition with_list (c : cls) (field : string) (mk : list block -> block)
           (items : list child) : child :=
  match as_blocks items with
  | Some bs => Inst (mk bs)
  | None => Loose c field items
  end.

Definition scalar_of (v : pyval) : option scalar :=
  match v with
  | PNone => Some SNone
  | PBool b => Some (SBool b)
  | PInt z => Some (SInt z)
  | PStr s => Some (SStr s)
  | _ => None
  end.

(** The fields of class [c] from the keyword arguments; [children] is
    the list [validate] has put under ['children'], if it did, and
    [text] the validated elements of ['text'] for a [LinkBlock].
    [None] stands for a [ValidationError]. *)
Definition fields (c : cls) (kwargs : pydict)
           (children : option (list (child * outcome unit)))
           (text : option (option (list child))) : option child :=
  let children_of (validator : list (child * outcome unit) -> option (list child)) :=
    match children with
    | Some l => validator l
    | None => unparsed_list (get "children" kwargs)
    end in
  match c with
  | CBaseBlock => Some (Inst BaseBlock)
  | CTranslatable => option_map Inst (Translatable_fields kwargs)
  | CRawDataBlock =>
      match required str_validator (get "name" kwargs) with
      | Some name =>
          match get "data" kwargs with
          | None => Some (Inst (RawDataBlock name SNone))
          | Some v =>
              match scalar_of v with
              | Some data => Some (Inst (RawDataBlock name data))
              | None => Some (Loose CRawDataBlock "data" [Plain v])
              end
          end
      | None => None
      end
  | CTextBlock =>
      match required str_validator (option_map validate_text (get "text" kwargs)),
            optional str_validator (get "translated_text" kwargs),
            defaulted false bool_validator (get "strong" kwargs),
            defaulted false bool_validator (get "emphasis" kwargs) with
      | Some text, Some translated_text, Some strong, Some emphasis =>
          Some (Inst (TextBlock text translated_text strong emphasis))
      | _, _, _, _ => None
      end
  | CLinkBlock =>
      match required str_validator (get "link" kwargs),
            optional str_validator (get "title" kwargs),
            text with
      | Some link, Some title, Some None =>
          Some (Inst (LinkBlock link title None))
      | Some link, Some title, Some (Some items) =>
          Some (with_list CLinkBlock "text"
                          (fun bs => LinkBlock link title (Some bs)) items)
      | _, _, _ => None
      end
  | CImageBlock =>
      match required str_validator (get "src" kwargs),
            defaulted AltStrClass
                      (fun v => option_map Alt (str_validator v))
                      (get "alt" kwargs),
            optional str_validator (get "title" kwargs) with
      | Some src, Some alt, Some title => Some (Inst (ImageBlock src alt title))
      | _, _, _ => None
      end
  | CHeadingBlock =>
      match required str_validator (get "text" kwargs),
            optional str_validator (get "translated_text" kwargs),
            required int_validator (get "level" kwargs) with
      | Some text, Some translated_text, Some level =>
          Some (Inst (HeadingBlock text translated_text level))
      | _, _, _ => None
      end
  | CSeparatorBlock => Some (Inst SeparatorBlock)
  | CCodeBlock =>
      match required str_validator (get "code" kwargs),
            optional str_validator (get "language" kwargs) with
      | Some code, Some language => Some (Inst (CodeBlock code language))
      | _, _ => None
      end
  | CHtmlBlock =>
      match required str_validator (get "code" kwargs) with
      | Some code => Some (Inst (HtmlBlock code))
      | None => None
      end
  | CListItemBlock =>
      match children_of (fun l => all_some (map (fun p => Translatable_element (fst p)) l)) with
      | Some items => Some (with_list CListItemBlock "children" ListItemBlock items)
      | None => None
      end
  | CListBlock =>
      match children_of block_elements,
            defaulted false bool_validator (get "ordered" kwargs) with
      | Some items, Some ordered =>
          Some (with_list CListBlock "children"
                          (fun bs => ListBlock bs ordered) items)
      | _, _ => None
      end
  end.

End Fields.

(** *** [BaseBlock.validate] *)

(** What the decoder computes for a plain value: what the loop of
    [validate] makes of it as a child, and what [validate] does when the
    value itself is passed to it (as pydantic does for the elements of a
    block-typed field). *)
Record decoded : Type := {
  as_child : outcome child;
  as_values : outcome unit
}.

(** pydantic turns a [ValueError], [TypeError] or [AssertionError] raised
    while a model is built into a [ValidationError] of that model. *)
Definition pydantic_catches (e : exc) : bool :=
  match e with
  | TypeError _ | UnknownBlockType _ | ValidationError _ | PathValueError => true
  | _ => false
  end.

Definition wrap (c : cls) (e : exc) : exc :=
  if pydantic_catches e then ValidationError c else e.

(** The message of the [TypeError] raised when the global [name], bound
    to [g], is called (the wording of CPython 3.11). *)
Definition not_callable (name : string) (g : global) : string :=
  match g with
  | GClass _ => ""
  | GTyping =>
      if String.eqb name "Any" then "Any cannot be instantiated"
      else if String.eqb name "Dict"
      then "Type Dict cannot be instantiated; use dict() instead"
      else if String.eqb name "List"
      then "Type List cannot be instantiated; use list() instead"
      else "Cannot instantiate typing." ++ name
  | GModule => "'module' object is not callable"
  | GData =>
      if String.eqb name "__doc__" then "'NoneType' object is not callable"
      else if String.eqb name "__loader__"
      then "'SourceFileLoader' object is not callable"
      else if String.eqb name "__spec__"
      then "'ModuleSpec' object is not callable"
      else if String.eqb name "__builtins__"
      then "'dict' object is not callable"
      else "'str' object is not callable"
  end.

Section Decoder.

Variable B : builtins.

Section Knot.

(** The decoder on the values nested in the one at hand. *)
Variable rec : pyval -> decoded.

(** One child of the loop, together with what [validate] does on it
    when it is still plain afterwards (see [block_element]). *)
Definition parse_child (x : pyval) : outcome (child * outcome unit) :=
  c <- as_child (rec x) ;;
  Return (c, match c with
             | Plain _ => as_values (rec x)
             | _ => Return tt
             end).

(** [for child in children: ...; parsed_children.append(block)] *)
Definition parse_children (children : pyval)
  : outcome (list (child * outcome unit)) :=
  match children with
  | PList l => mapM parse_child l
  | PStr s => Return (map (fun ch => (Plain (PStr ch), Return tt)) (chars s))
  | PDict d => Return (map (fun kv => (Plain (PStr (fst kv)), Return tt)) d)
  | PNone => Raise (TypeError "'NoneType' object is not iterable")
  | PBool _ => Raise (TypeError "'bool' object is not iterable")
  | PInt _ => Raise (TypeError "'int' object is not iterable")
  | PStrClass => Raise (TypeError "'type' object is not iterable")
  end.

(** [validate], on a dict: the list it stores under ['children'],
    or [None] when it leaves the dict as it is. *)
Definition validate_with (values : pydict)
  : outcome (option (list (child * outcome unit))) :=
  match get_with "children"
          (fun children =>
             if truthy children
             then l <- parse_children children ;; Return (Some l)
             else Return None)
          values with
  | Some r => r
  | None => Return None
  end.

(** The elements of [LinkBlock.text : Optional[List[BaseBlock]]]. *)
Definition text_elements (v : pyval) : option (option (list child)) :=
  match v with
  | PNone => Some None
  | PList l =>
      option_map Some
        (block_elements (map (fun x => (Plain x, as_values (rec x))) l))
  | _ => None
  end.

Definition text_field (kwargs : pydict) : option (option (list child)) :=
  match get_with "text" text_elements kwargs with
  | Some r => r
  | None => Some None
  end.

(** The class [c] called with keyword arguments: the root validator
    [validate] first, for the subclasses of [BaseBlock], then the
    declared fields; keys that name no field are ignored. *)
Definition construct_with (c : cls) (kwargs : pydict) : outcome child :=
  match (match c with
         | CTranslatable => Return None
         | _ => validate_with kwargs
         end) with
  | Raise e => Raise (wrap c e)
  | Return children =>
      match fields B c kwargs children (text_field kwargs) with
      | Some instance => Return instance
      | None => Raise (ValidationError c)
      end
  end.

(** The body of the loop of [validate], for a child that is a dict:
    [[
    if isinstance(child, dict) and 'block_type' in child:
        block_type = child.pop('block_type')
        if block_type not in globals():
            raise ValueError('Unknown Block Type: %s', block_type)
        block = globals()[block_type]( **child )
    else:
        block = child
    ]]
    The class is called here on the dict with ['block_type'] still
    in it; [construct_pop] shows the key makes no difference. *)
Definition child_of_dict (d : pydict) : outcome child :=
  match get "block_type" d with
  | None => Return (Plain (PDict d))
  | Some block_type =>
      match block_type with
      | PStr name =>
          match lookup_global name with
          | None => Raise (UnknownBlockType block_type)
          | Some (GClass c) => construct_with c d
          | Some g => Raise (TypeError (not_callable name g))
          end
      | PList _ => Raise (TypeError "unhashable type: 'list'")
      | PDict _ => Raise (TypeError "unhashable type: 'dict'")
      | _ => Raise (UnknownBlockType block_type)
      end
  end.

End Knot.

Fixpoint decode (v : pyval) : decoded :=
  match v with
  | PDict d =>
      {| as_child := child_of_dict decode d;
         as_values := _ <- validate_with decode d ;; Return tt |}
  | _ => {| as_child := Return (Plain v); as_values := Return tt |}
  end.

(** One turn of the loop of [validate]: the block made of the child [x]. *)
Definition decode_child (x : pyval) : outcome child :=
  as_child (decode x).

(** [BaseBlock.validate(values)] on a dict: the new value of
    [values['children']], or [None] when the dict is returned as it
    came. *)
Definition validate (values : pydict) : outcome (option (list child)) :=
  parsed <- validate_with decode values ;;
  Return (option_map (map fst) parsed).

(** The class [c] called with the keyword arguments [kwargs]. *)
Definition construct (c : cls) (kwargs : pydict) : outcome child :=
  construct_with decode c kwargs.

End Decoder.

(* ================================================================== *)
(** ** The driver: [application.py] *)

Module Application.

(** A [pathlib.Path], by its [parts]; the root ["/"], when there is
    one, is the first part. *)
Definition path : Type := list string.

(** [p.name]: the last part; the empty string for the root alone and
    for the path without parts. *)
Definition name (p : path) : string :=
  match p with
  | [root] => if String.eqb root "/" then "" else root
  | _ => last p ""
  end.

Definition is_rooted (p : path) : bool :=
  match p with
  | root :: _ => String.eqb root "/"
  | [] => false
  end.

Fixpoint is_prefix (p q : path) : bool :=
  match p, q with
  | [], _ => true
  | a :: p', b :: q' => String.eqb a b && is_prefix p' q'
  | _ :: _, [] => false
  end.

(** [p.relative_to(other)]: the parts of [p] after those of [other],
    or a [ValueError] when [p] does not lie under [other]. *)
Definition relative_to (p other : path) : outcome path :=
  match other with
  | [] => if is_rooted p then Raise PathValueError else Return p
  | _ => if is_prefix other p
         then Return (skipn (length other) p)
         else Raise PathValueError
  end.

(** [str(p)] *)
Definition str_of_path (p : path) : string :=
  match p with
  | [] => "."
  | root :: rest =>
      if String.eqb root "/" then "/" ++ join "/" rest else join "/" p
  end.

(** [part in file.parts] *)
Definition part_in (part : string) (file : path) : bool :=
  existsb (String.eqb part) file.

(** The file system, as the driver sees it. *)
Record filesystem : Type := {
  exists_ : path -> bool;
  is_file : path -> bool;
  glob_md : path -> list path        (* p.glob('**/*.md') *)
}.

(** [settings.path] is one path or a list of paths. *)
Inductive path_setting : Type :=
| OnePath (p : path)
| PathList (l : list path).

Record Settings : Type := {
  settings_path : path_setting;
  ignore_cache : bool;
  new_file : bool;
  overwrite : bool;
  save_temp_on_complete : bool
}.

(** What a run leaves behind, in order. *)
Inductive event : Type :=
| LogDebug (msg : string) (arg : string)
| LogInfo (msg : string) (args : list string)
| LogError (msg : string) (arg : string)
| LogExc (e : exc)                      (* logger.error(e), logger.exception(e) *)
| ProviderEntered
| ProviderExited
| DocumentTranslated (file : path)
| DocumentWritten (file : path)
    (* [document.write] was called on the document loaded from [file] *)
| Echo (msg : string).

(** Subclasses of [Exception], the ones [except Exception] catches. *)
Definition is_Exception (e : exc) : bool :=
  match e with
  | BaseExceptionOnly _ => false
  | _ => true
  end.

Section GetFiles.

Variable fs : filesystem.

(** The first loop: the files found under each configured path. *)
Fixpoint found_files (paths : list path) : list event * outcome (list path) :=
  match paths with
  | [] => ([], Return [])
  | path_to_process :: rest =>
      if negb (exists_ fs path_to_process)
      then ([], Raise (ClickException
                         ("Path not found: " ++ str_of_path path_to_process)))
      else
        let here :=
          if is_file fs path_to_process
          then [path_to_process]
          else glob_md fs path_to_process in
        let logged := map (fun f => LogDebug "Found file: %s" (str_of_path f)) here in
        match found_files rest with
        | (log, Return more) => (logged ++ log, Return (here ++ more))%list
        | (log, Raise e) => (logged ++ log, Raise e)%list
        end
  end.

(** [[f for f in files_to_process if '_translated' not in f.name]] *)
Definition source_files_of (files_to_process : list path) : list path :=
  filter (fun file_to_process =>
            negb (contains "_translated" (name file_to_process)))
         files_to_process.

(** The path made of the parts of [source_files[0]] that are a part
    of every source file: [part for part in source_files[0].parts
    if all(part in file.parts for file in source_files)]. *)
Definition common_path_part (source_files : list path) : outcome path :=
  match source_files with
  | [] => Raise IndexError
  | first :: _ =>
      Return (filter (fun part => forallb (part_in part) source_files) first)
  end.

Definition _get_files_to_process (settings : Settings)
  : list event * outcome (list path) :=
  let paths := match settings_path settings with
               | OnePath p => [p]
               | PathList l => l
               end in
  match found_files paths with
  | (log, Raise e) => (log, Raise e)
  | (log, Return files_to_process) =>
      let source_files := source_files_of files_to_process in
      match (common <- common_path_part source_files ;;
             mapM (fun f => r <- relative_to f common ;; Return (str_of_path r))
                  source_files) with
      | Raise e => (log, Raise e)
      | Return shown =>
          ((log ++ [LogInfo "Found %s files to process: %s"
                      [str_of_Z (Z.of_nat (length source_files));
                       join ", " shown]])%list,
           Return source_files)
      end
  end.

End GetFiles.

(** The collaborators of [process_file], per file: the document loader,
    the document's own test, the translation provider as a context manager,
    the translation itself and the writer. [exit_] gets the exception
    that leaves the [with] block, if any, and answers whether it
    swallows it. *)
Record collaborators (document provider : Type) : Type := {
  from_file : path -> bool -> outcome document;
  doc_should_be_translated : document -> bool -> bool -> outcome bool;
  enter : path -> outcome provider;
  exit_ : path -> option exc -> outcome bool;
  translate : document -> provider -> outcome unit;
  write : document -> bool -> bool -> outcome unit
}.
Arguments from_file {document provider}.
Arguments doc_should_be_translated {document provider}.
Arguments enter {document provider}.
Arguments exit_ {document provider}.
Arguments translate {document provider}.
Arguments write {document provider}.

Section ProcessFile.

Context {document provider : Type}.
Variable W : collaborators document provider.
Variable settings : Settings.

(** The last two statements: write the document, report it. *)
Definition write_and_report (log : list event) (document_ : document)
           (file_to_process : path) : list event * outcome unit :=
  match write W document_ (new_file settings) (save_temp_on_complete settings) with
  | Raise e => (log, Raise e)
  | Return _ =>
      ((log ++ [DocumentWritten file_to_process;
                Echo ("Processed file: " ++ name file_to_process)])%list,
       Return tt)
  end.

Definition process_file (file_to_process : path) : list event * outcome unit :=
  let log0 := [LogInfo "Processing file: %s" [str_of_path file_to_process]] in
  match from_file W file_to_process (ignore_cache settings) with
  | Raise e =>
      if is_Exception e
      then ((log0 ++ [LogError "Error processing file: %s"
                               (str_of_path file_to_process);
                      LogExc e])%list,
            Return tt)
      else (log0, Raise e)
  | Return document_ =>
      match doc_should_be_translated W document_ (new_file settings)
                                     (overwrite settings) with
      | Raise e => (log0, Raise e)
      | Return false =>
          ((log0 ++ [LogInfo "Skipping file: %s. Already translated"
                             [name file_to_process]])%list,
           Return tt)
      | Return true =>
          match enter W file_to_process with
          | Raise e => (log0, Raise e)
          | Return provider_ =>
              let log1 := (log0 ++ [ProviderEntered])%list in
              match translate W document_ provider_ with
              | Raise e =>
                  if is_Exception e
                  then
                    (* logged, then [return] from inside the [with] *)
                    let log2 :=
                      (log1 ++ [LogError "Error while translating file: %s"
                                         (name file_to_process);
                                LogExc e; ProviderExited])%list in
                    match exit_ W file_to_process None with
                    | Raise e' => (log2, Raise e')
                    | Return _ => (log2, Return tt)
                    end
                  else
                    let log2 := (log1 ++ [ProviderExited])%list in
                    match exit_ W file_to_process (Some e) with
                    | Raise e' => (log2, Raise e')
                    | Return true =>
                        write_and_report log2 document_ file_to_process
                    | Return false => (log2, Raise e)
                    end
              | Return _ =>
                  let log2 :=
                    (log1 ++ [DocumentTranslated file_to_process;
                              ProviderExited])%list in
                  match exit_ W file_to_process None with
                  | Raise e' => (log2, Raise e')
                  | Return _ =>
                      write_and_report log2 document_ file_to_process
                  end
              end
          end
      end
  end.

(** The loop of [run_single_process] over the files. *)
Fixpoint process_files (files : list path) : list event * outcome unit :=
  match files with
  | [] => ([], Return tt)
  | file_to_process :: rest =>
      match process_file file_to_process with
      | (log, Raise e) => (log, Raise e)
      | (log, Return _) =>
          let (log', r) := process_files rest in
          ((log ++ log')%list, r)
      end
  end.

End ProcessFile.

End Application.

(* ================================================================== *)
(** ** Trees the codec carries, and sample inputs *)



Module Samples.
Import Application.

Definition docs : path := ["docs"].
Definition readme : path := ["docs"; "readme.md"].
Definition readme_translated : path := ["docs"; "readme_translated.md"].

Definition guide : path := ["docs"; "guide.md"].

(** A link whose text is one plain text block. *)
Definition home : block := TextBlock "home" None false false.
Definition link : block := LinkBlock "https://example.org" None (Some [home]).

(** A directory [docs] holding two source files and an earlier output. *)
Definition fs : filesystem :=
  {| exists_ := fun p => is_prefix docs p;
     is_file := fun p => negb (Nat.eqb (length p) 1);
     glob_md := fun _ => [readme; readme_translated; guide] |}.

Definition settings : Settings :=
  {| settings_path := OnePath docs;
     ignore_cache := false;
     new_file := true;
     overwrite := false;
     save_temp_on_complete := false |}.

(** Collaborators whose translation service fails. *)
Definition failing : collaborators unit unit :=
  {| from_file := fun _ _ => Return tt;
     doc_should_be_translated := fun _ _ _ => Return true;
     enter := fun _ => Return tt;
     exit_ := fun _ _ => Return false;
     translate := fun _ _ => Raise (OtherException "TranslationError");
     write := fun _ _ _ => Return tt |}.

End Samples.

(* ================================================================== *)
(** ** The remaining methods of the blocks and the single-process run *)

(** [get_data_to_translate]: the mixin [Translatable] raises
    [NotImplementedError], [TextBlock] overrides it and returns its text,
    [HeadingBlock] defines [data_to_translate] instead and so keeps the
    mixin's method; the classes outside the mixin have no such
    attribute. *)
Definition get_data_to_translate (b : block) : outcome string :=
  match b with
  | TextBlock text _ _ _ => Return text
  | Translatable _ _ | HeadingBlock _ _ _ => Raise NotImplementedError
  | _ => Raise (OtherException "AttributeError")
  end.

(** [HeadingBlock.data_to_translate] *)
Definition data_to_translate (b : block) : outcome string :=
  match b with
  | HeadingBlock text _ _ => Return text
  | _ => Raise (OtherException "AttributeError")
  end.

(** [bool(block)]: [RawDataBlock.__bool__] is [bool(self.data)]; the
    other classes define neither [__bool__] nor [__len__], so their
    instances are truthy. *)
Definition bool_of_block (b : block) : bool :=
  match b with
  | RawDataBlock _ data => truthy (plain_of_scalar data)
  | _ => true
  end.

(** A child the loop of [validate] leaves alone: anything that is not a
    dict with the key ['block_type']. *)
Definition untagged (x : pyval) : bool :=
  match x with
  | PDict d => negb (has_key "block_type" d)
  | _ => true
  end.

(** A truthy value a [for] loop cannot iterate over. *)
Definition not_iterable (v : pyval) : bool :=
  match v with
  | PBool _ | PInt _ | PStrClass => truthy v
  | _ => false
  end.

(** The exceptions the decoder raises itself: the [ValueError] for an
    unknown block type, a [TypeError], and pydantic's [ValidationError]. *)
Definition decoder_error (e : exc) : bool :=
  match e with
  | TypeError _ | UnknownBlockType _ | ValidationError _ => true
  | _ => false
  end.

(** A call that raises nothing but such exceptions. *)
Definition raises_decoder_errors {A} (m : outcome A) : Prop :=
  forall e, m = Raise e -> decoder_error e = true.

Module Run.
Import Application.

Definition is_entered (ev : event) : bool :=
  match ev with ProviderEntered => true | _ => false end.

Definition is_exited (ev : event) : bool :=
  match ev with ProviderExited => true | _ => false end.

Definition is_written (ev : event) : bool :=
  match ev with DocumentWritten _ => true | _ => false end.

(** How many events of a kind a log holds. *)
Definition count (kind : event -> bool) (log : list event) : nat :=
  length (filter kind log).

Section RunSingleProcess.

Context {document provider : Type}.
Variable fs : filesystem.
Variable W : collaborators document provider.
Variable settings : Settings.

(** What [_get_translation_provider] does: the call of
    [settings.service], which builds the provider or raises. *)
Variable _get_translation_provider : outcome unit.

(** [run_single_process]: the files, then the provider, then the loop. *)
Definition run_single_process : list event * outcome unit :=
  match _get_files_to_process fs settings with
  | (log, Raise e) => (log, Raise e)
  | (log, Return files_to_process) =>
      match _get_translation_provider with
      | Raise e => (log, Raise e)
      | Return _ =>
          let (log', r) := process_files W settings files_to_process in
          ((log ++ log')%list, r)
      end
  end.

End RunSingleProcess.

End Run.

Module MoreSamples.
Import Application.

(** Builtins that read no string as an integer and print every
    container as the empty string; enough where neither is asked for. *)
Definition builtins_ : builtins :=
  {| py_int := fun _ => None; py_repr := fun _ => "" |}.

(** Collaborators for which everything goes well. *)
Definition working : collaborators unit unit :=
  {| from_file := fun _ _ => Return tt;
     doc_should_be_translated := fun _ _ _ => Return true;
     enter := fun _ => Return tt;
     exit_ := fun _ _ => Return false;
     translate := fun _ _ => Return tt;
     write := fun _ _ _ => Return tt |}.

(** Collaborators whose loader fails. *)
Definition unreadable : collaborators unit unit :=
  {| from_file := fun _ _ => Raise (OtherException "UnicodeDecodeError");
     doc_should_be_translated := fun _ _ _ => Return true;
     enter := fun _ => Return tt;
     exit_ := fun _ _ => Return false;
     translate := fun _ _ => Return tt;
     write := fun _ _ _ => Return tt |}.

(** Collaborators for a document that is already translated. *)
Definition already_done : collaborators unit unit :=
  {| from_file := fun _ _ => Return tt;
     doc_should_be_translated := fun _ _ _ => Return false;
     enter := fun _ => Return tt;
     exit_ := fun _ _ => Return false;
     translate := fun _ _ => Return tt;
     write := fun _ _ _ => Return tt |}.

(** Collaborators whose translation is interrupted from the keyboard. *)
Definition interrupted : collaborators unit unit :=
  {| from_file := fun _ _ => Return tt;
     doc_should_be_translated := fun _ _ _ => Return true;
     enter := fun _ => Return tt;
     exit_ := fun _ _ => Return false;
     translate := fun _ _ => Raise (BaseExceptionOnly "KeyboardInterrupt");
     write := fun _ _ _ => Return tt |}.

(** Collaborators whose translation fails and whose provider then fails
    to shut down. *)
Definition failing_exit : collaborators unit unit :=
  {| from_file := fun _ _ => Return tt;
     doc_should_be_translated := fun _ _ _ => Return true;
     enter := fun _ => Return tt;
     exit_ := fun _ _ => Raise (OtherException "WebDriverException");
     translate := fun _ _ => Raise (OtherException "TranslationError");
     write := fun _ _ _ => Return tt |}.

(** A file system in which only [docs/readme.md] exists, a file. *)
Definition one_file : filesystem :=
  {| exists_ := fun p => is_prefix p Samples.readme && is_prefix Samples.readme p;
     is_file := fun _ => true;
     glob_md := fun _ => [] |}.

Definition settings_for (paths : list path) : Settings :=
  {| settings_path := PathList paths;
     ignore_cache := false;
     new_file := true;
     overwrite := false;
     save_temp_on_complete := false |}.

(** A directory holding nothing but an earlier output. *)
Definition only_outputs : filesystem :=
  {| exists_ := fun _ => true;
     is_file := fun _ => false;
     glob_md := fun _ => [Samples.readme_translated] |}.

End MoreSamples.

(* ================================================================== *)
(** ** The specification's reading of three operations

    These follow the words of the specification, not the code; the
    theorems below compare them with the code. *)

Module Spec.

(** The data-model table: the kinds it marks as translatable. *)
Definition table_translatable (c : cls) : bool :=
  match c with
  | CTextBlock | CImageBlock | CLinkBlock | CHeadingBlock => true
  | _ => false
  end.

(** "its translated_text is null": the node carries no translation. *)
Definition translation_is_null (b : block) : bool :=
  match translated_text_of b with
  | Some (Some _) => false
  | _ => true
  end.

(** needsTranslation: "true only when the kind is Translatable and
    translated_text is null". *)
Definition needsTranslation (b : block) : bool :=
  table_translatable (class_of b) && translation_is_null b.


(** A rendered leaf with a translation: "both the original and
    translated text, separated by a blank line (original first)". *)
Definition merged (text translated_text : string) : string :=
  text ++ newline ++ newline ++ translated_text.

End Spec.

(* ================================================================== *)
(** ** Rendering: general facts *)

Lemma mapM_cons {A B} (f : A -> outcome B) (x : A) (l : list A) :
  mapM f (x :: l) = (y <- f x ;; ys <- mapM f l ;; Return (y :: ys)).
Proof. reflexivity. Qed.

Lemma mapM_length {A B} (f : A -> outcome B) (l : list A) (r : list B) :
  mapM f l = Return r -> length r = length l.
Proof.
  revert r; induction l as [|x l IH]; intros r H; simpl in H.
  - now inversion H.
  - destruct (f x) as [y|e]; simpl in H; [|discriminate].
    destruct (mapM f l) as [ys|e]; simpl in H; [|discriminate].
    inversion H; subst; simpl. now rewrite (IH ys).
Qed.

Lemma mapM_nth {A B} (f : A -> outcome B) (l : list A) (r : list B) :
  mapM f l = Return r ->
  forall i x, nth_error l i = Some x ->
  exists y, f x = Return y /\ nth_error r i = Some y.
Proof.
  revert r; induction l as [|a l IH]; intros r H i x Hi.
  - destruct i; discriminate.
  - simpl in H.
    destruct (f a) as [y|e] eqn:Ha; simpl in H; [|discriminate].
    destruct (mapM f l) as [ys|e] eqn:Hl; simpl in H; [|discriminate].
    inversion H; subst; clear H.
    destruct i as [|i]; simpl in Hi.
    + inversion Hi; subst. exists y. now split.
    + destruct (IH ys eq_refl i x Hi) as [z [Hz Hn]].
      exists z. now split.
Qed.



(** The equations of [render] on the blocks that hold blocks. *)
Lemma render_LinkBlock link title items :
  render (LinkBlock link title (Some items))
  = (strs <- mapM render items ;;
     Return ("[" ++ link_label (join " " strs) title ++ "](" ++ link ++ ")")).
Proof. reflexivity. Qed.





Lemma length_append (s t : string) :
  String.length (s ++ t) = (String.length s + String.length t)%nat.
Proof.
  induction s as [|a s IH]; simpl; [reflexivity|]. now rewrite IH.
Qed.

(* ================================================================== *)
(** ** Rendering a node with a translation *)

(** [TextBlock.__str__] and [HeadingBlock.__str__] never look at
    [translated_text]. *)
Lemma render_ignores_translation_TextBlock text tr tr' strong emphasis :
  render (TextBlock text tr strong emphasis)
  = render (TextBlock text tr' strong emphasis).
Proof. reflexivity. Qed.

Lemma render_ignores_translation_HeadingBlock text tr tr' level :
  render (HeadingBlock text tr level) = render (HeadingBlock text tr' level).
Proof. reflexivity. Qed.

(** [Translatable.__str__] returns the original text alone when a
    translation is set. *)
Lemma render_Translatable_set text translated :
  render (Translatable text (Some translated)) = Return text.
Proof. reflexivity. Qed.

(** C1 (evaluation at the failing input). A [TextBlock] with text "Hola"
    and translated_text "Hello" renders as "Hola": the translation is not
    emitted, where the specification expects "Hola", a blank line, then
    "Hello". The same holds for the mixin [Translatable] itself, whose
    [__str__] builds the merged text only when there is no translation,
    and drops it. *)
Theorem C1_translated_text_not_rendered :
  render (TextBlock "Hola" (Some "Hello") false false) = Return "Hola"
  /\ render (Translatable "Hola" (Some "Hello")) = Return "Hola"
  /\ Return "Hola" <> Return (Spec.merged "Hola" "Hello").
Proof.
  repeat split; discriminate.
Qed.

(* ================================================================== *)
(** ** Totality of rendering *)

(** C2 (evaluation at the failing inputs). Rendering raises a
    [TypeError] for a [LinkBlock] whose [text] is [None] (its declared
    default), and for a [Translatable] whose [translated_text] is
    [None]; the abstract [BaseBlock] raises [NotImplementedError]. *)
Theorem C2_render_raises :
  render (LinkBlock "https://example.org" None None)
    = Raise (TypeError "'NoneType' object is not iterable")
  /\ render (Translatable "Hola" None)
    = Raise (TypeError "sequence item 1: expected str instance, NoneType found")
  /\ render (ListItemBlock [Translatable "Hola" None])
    = Raise (TypeError "sequence item 1: expected str instance, NoneType found").
Proof. repeat split. Qed.

(** The kinds whose [__str__] cannot raise. *)
Lemma render_total_leaves (b : block) :
  match b with
  | BaseBlock | Translatable _ None | LinkBlock _ _ _ | HeadingBlock _ _ _
  | ListItemBlock _ | ListBlock _ _ => True
  | _ => exists s, render b = Return s
  end.
Proof.
  destruct b as [ |text [tr|]| | text tr [|] [|] | | | | | | | | ];
    simpl; eauto.
Qed.



(* ================================================================== *)
(** ** Strong and emphasis *)

(** C9. A [TextBlock] with both flags set renders as the text between
    two pairs of asterisks: [strong] is tested first and [emphasis] is
    then not consulted, so the result is the one of a block with
    [strong] alone, and is never the text between two triples of
    asterisks. *)
Theorem C9_strong_takes_precedence (text : string) (tr : option string) :
  render (TextBlock text tr true true) = Return ("**" ++ text ++ "**")
  /\ render (TextBlock text tr true true) = render (TextBlock text tr true false)
  /\ render (TextBlock text tr true true) <> Return ("***" ++ text ++ "***").
Proof.
  repeat split. simpl. intros H. inversion H as [Heq].
  apply (f_equal String.length) in Heq.
  simpl in Heq. rewrite !length_append in Heq. simpl in Heq. lia.
Qed.

(** Every [TextBlock] renders in one of three forms. *)
Lemma render_TextBlock_forms text tr strong emphasis :
  render (TextBlock text tr strong emphasis)
  = Return (if strong then "**" ++ text ++ "**"
            else if emphasis then "*" ++ text ++ "*" else text).
Proof. destruct strong, emphasis; reflexivity. Qed.

(* ================================================================== *)
(** ** Lists *)


(** An ordered list is numbered from 0, the first counter of [enumerate]. *)
Example render_ordered_list :
  render (ListBlock [plain_item "a"; plain_item "b"] true)
  = Return ("0. a" ++ newline ++ "1. b").
Proof. reflexivity. Qed.



(* ================================================================== *)
(** ** Links *)

(** C8 (counterexample). A [LinkBlock] with a title and a link text
    renders without the title. *)
Lemma C8_title_not_rendered :
  render (LinkBlock "https://example.org" (Some "Tooltip")
                    (Some [TextBlock "home" None false false]))
  = Return "[home](https://example.org)"
  /\ contains "Tooltip" "[home](https://example.org)" = false.
Proof. split; reflexivity. Qed.

(** C8 (amended). For a [LinkBlock] whose [text] is a list of blocks that
    render, the rendering is the label between square brackets followed
    by the link between parentheses. The label is the renderings of the
    text blocks joined by single spaces; only when that is empty is the
    title used, as the label ([None] printing as the word None). With a
    non-empty label the title, null or not, does not appear. *)
Theorem C8_link_rendering (link : string) (title : option string)
        (items : list block) (strs : list string) :
  mapM render items = Return strs ->
  (join " " strs <> "" ->
     render (LinkBlock link title (Some items))
     = Return ("[" ++ join " " strs ++ "](" ++ link ++ ")"))
  /\ (join " " strs = "" ->
     render (LinkBlock link title (Some items))
     = Return ("[" ++ str_of_opt title ++ "](" ++ link ++ ")")).
Proof.
  intros Hstrs.
  assert (Hr : render (LinkBlock link title (Some items))
               = Return ("[" ++ link_label (join " " strs) title
                             ++ "](" ++ link ++ ")")).
  { now rewrite render_LinkBlock, Hstrs. }
  split; intros Hj; rewrite Hr; unfold link_label.
  - destruct (join " " strs); [congruence | reflexivity].
  - now rewrite Hj.
Qed.

Lemma C8_link_rendering_witness :
  render (LinkBlock "https://example.org" (Some "Tooltip")
            (Some [TextBlock "home" None false false;
                   TextBlock "page" None true false]))
  = Return "[home **page**](https://example.org)".
Proof.
  apply (proj1 (C8_link_rendering "https://example.org" (Some "Tooltip")
                  [TextBlock "home" None false false;
                   TextBlock "page" None true false]
                  ["home"; "**page**"] eq_refl)).
  discriminate.
Defined.

(** With an empty text and no title the label is the word None. *)
Example render_link_without_label :
  render (LinkBlock "u" None (Some [])) = Return "[None](u)".
Proof. reflexivity. Qed.

(* ================================================================== *)
(** ** [should_be_translated] *)

(** [should_be_translated] is true exactly when the node's class
    inherits the mixin [Translatable] (the classes [Translatable],
    [TextBlock] and [HeadingBlock]) and its [translated_text] is
    [None]. *)
Lemma should_be_translated_iff_mixin (b : block) :
  should_be_translated b
  = inherits_Translatable (class_of b) && translated_text_is_None b.
Proof.
  destruct b as [ |text [tr|]| |text [tr|] s e| | |text [tr|] l| | | | | ];
    reflexivity.
Qed.

(** C5 (evaluation at the failing inputs). [ImageBlock] and [LinkBlock]
    are declared translatable by their own class attribute
    [IS_TRANSLATABLE], like [TextBlock], and by the data-model table
    they need translation while they carry none; yet
    [should_be_translated] answers false for every instance of them:
    they keep the method of [BaseBlock], which does not read the flag,
    where [TextBlock] answers through the mixin. *)
Theorem C5_flagged_kinds_never_due
        (src link text : string) (alt : alt_value) (title : option string)
        (blocks : option (list block)) :
  (IS_TRANSLATABLE CImageBlock = true
   /\ Spec.needsTranslation (ImageBlock src alt title) = true
   /\ should_be_translated (ImageBlock src alt title) = false)
  /\ (IS_TRANSLATABLE CLinkBlock = true
      /\ Spec.needsTranslation (LinkBlock link title blocks) = true
      /\ should_be_translated (LinkBlock link title blocks) = false)
  /\ (IS_TRANSLATABLE CTextBlock = true
      /\ should_be_translated (TextBlock text None false false) = true).
Proof. repeat split. Qed.

(* ================================================================== *)
(** ** The driver *)

Module ApplicationFacts.
Import Application.

(** After a file whose processing returns, the loop of
    [run_single_process] goes on with the remaining files. *)
Lemma process_files_goes_on
      {document provider : Type} (W : collaborators document provider)
      (settings : Settings) (file : path) (rest : list path)
      (log : list event) :
  process_file W settings file = (log, Return tt) ->
  process_files W settings (file :: rest)
  = ((log ++ fst (process_files W settings rest))%list,
     snd (process_files W settings rest)).
Proof.
  intros H. simpl. rewrite H.
  now destruct (process_files W settings rest).
Qed.

(** C7 (counterexample). The claim as it reads fails: with a provider
    whose exit raises, a failed translation does not end in a return of
    [process_file]. The exception of the exit leaves it, and the loop
    over the files stops before the next file. *)
Lemma C7_exit_failure_propagates :
  ~ (forall (W : collaborators unit unit) (settings : Settings) (file : path)
            (doc prov : unit) (e : exc),
        from_file W file (ignore_cache settings) = Return doc ->
        doc_should_be_translated W doc (new_file settings) (overwrite settings)
          = Return true ->
        enter W file = Return prov ->
        translate W doc prov = Raise e ->
        is_Exception e = true ->
        snd (process_file W settings file) = Return tt
        /\ forall rest,
            snd (process_files W settings (file :: rest))
            = snd (process_files W settings rest)).
Proof.
  intros H.
  destruct (H MoreSamples.failing_exit Samples.settings Samples.readme tt tt
              (OtherException "TranslationError")
              eq_refl eq_refl eq_refl eq_refl eq_refl) as [Hret _].
  discriminate Hret.
Qed.

(** With such a provider the run ends at the first file. *)
Example process_files_exit_failure :
  process_files MoreSamples.failing_exit Samples.settings
                [Samples.readme; Samples.guide]
  = ([LogInfo "Processing file: %s" ["docs/readme.md"]; ProviderEntered;
      LogError "Error while translating file: %s" "readme.md";
      LogExc (OtherException "TranslationError"); ProviderExited],
     Raise (OtherException "WebDriverException")).
Proof. reflexivity. Qed.

(** C7 (amended). When the document loads, is due for translation, the provider is
    entered and [document.translate] raises an [Exception], then
    [process_file] logs the failure with the exception, writes nothing
    and echoes nothing, and ends as leaving the provider ends: it
    returns normally when the provider's exit does, so the exception of
    the translation never leaves [process_file], and the loop over the
    files goes on with the files that follow. *)
Theorem C7_translation_failure_is_contained
        {document provider : Type} (W : collaborators document provider)
        (settings : Settings) (file : path)
        (doc : document) (prov : provider) (e : exc) :
  from_file W file (ignore_cache settings) = Return doc ->
  doc_should_be_translated W doc (new_file settings) (overwrite settings)
    = Return true ->
  enter W file = Return prov ->
  translate W doc prov = Raise e ->
  is_Exception e = true ->
  let log := fst (process_file W settings file) in
  let result := snd (process_file W settings file) in
  In (LogError "Error while translating file: %s" (name file)) log
  /\ In (LogExc e) log
  /\ (forall f, ~ In (DocumentWritten f) log)
  /\ (forall msg, ~ In (Echo msg) log)
  /\ result = (_ <- exit_ W file None ;; Return tt)
  /\ (forall r, exit_ W file None = Return r ->
        result = Return tt
        /\ forall rest,
            process_files W settings (file :: rest)
            = ((log ++ fst (process_files W settings rest))%list,
               snd (process_files W settings rest))).
Proof.
  intros Hload Hdue Henter Htr He log result.
  assert (Hrun : process_file W settings file
                 = ([LogInfo "Processing file: %s" [str_of_path file];
                     ProviderEntered;
                     LogError "Error while translating file: %s" (name file);
                     LogExc e; ProviderExited],
                    _ <- exit_ W file None ;; Return tt)).
  { unfold process_file. rewrite Hload, Hdue, Henter, Htr, He.
    now destruct (exit_ W file None). }
  subst log result. rewrite Hrun. cbn [fst snd].
  split; [simpl; tauto|].
  split; [simpl; tauto|].
  split; [intros f [H|[H|[H|[H|[H|[]]]]]]; discriminate|].
  split; [intros msg [H|[H|[H|[H|[H|[]]]]]]; discriminate|].
  split; [reflexivity|].
  intros r Hr. rewrite Hr in Hrun |- *. split; [reflexivity|].
  intros rest. now apply process_files_goes_on.
Qed.

Lemma C7_translation_failure_is_contained_witness :
  In (LogError "Error while translating file: %s" (name Samples.readme))
     (fst (process_file Samples.failing Samples.settings Samples.readme))
  /\ In (LogExc (OtherException "TranslationError"))
        (fst (process_file Samples.failing Samples.settings Samples.readme))
  /\ (forall f, ~ In (DocumentWritten f)
                  (fst (process_file Samples.failing Samples.settings Samples.readme)))
  /\ (forall msg, ~ In (Echo msg)
                    (fst (process_file Samples.failing Samples.settings Samples.readme)))
  /\ snd (process_file Samples.failing Samples.settings Samples.readme)
     = (_ <- exit_ Samples.failing Samples.readme None ;; Return tt)
  /\ (forall r, exit_ Samples.failing Samples.readme None = Return r ->
        snd (process_file Samples.failing Samples.settings Samples.readme)
        = Return tt
        /\ forall rest,
            process_files Samples.failing Samples.settings
                          (Samples.readme :: rest)
            = ((fst (process_file Samples.failing Samples.settings Samples.readme)
                  ++ fst (process_files Samples.failing Samples.settings rest))%list,
               snd (process_files Samples.failing Samples.settings rest))).
Proof.
  apply (C7_translation_failure_is_contained
           Samples.failing Samples.settings Samples.readme tt tt
           (OtherException "TranslationError")); reflexivity.
Defined.

(** A file that passes the filter has no ['_translated'] in its name. *)
Lemma source_files_of_sound (files : list path) (f : path) :
  In f (source_files_of files) -> contains "_translated" (name f) = false.
Proof.
  unfold source_files_of. intros H. apply filter_In in H.
  destruct H as [_ H]. now apply negb_true_iff in H.
Qed.

(** The filter keeps the order of the files and drops nothing else. *)
Lemma source_files_of_complete (files : list path) (f : path) :
  In f files -> contains "_translated" (name f) = false ->
  In f (source_files_of files).
Proof.
  intros Hin Hc. unfold source_files_of. apply filter_In.
  split; [exact Hin|]. now rewrite Hc.
Qed.

(** C10. Whenever [_get_files_to_process] returns, every file it
    returns has a name that does not contain ['_translated']. *)
Theorem C10_translated_files_are_skipped
        (fs : filesystem) (settings : Settings)
        (log : list event) (files : list path) :
  _get_files_to_process fs settings = (log, Return files) ->
  forall f, In f files -> contains "_translated" (name f) = false.
Proof.
  unfold _get_files_to_process.
  destruct (found_files fs _) as [log0 [found|e]]; [|discriminate].
  destruct (common_path_part _) as [common|e]; simpl; [|discriminate].
  destruct (mapM _ _) as [shown|e]; [|discriminate].
  intros H f Hf. inversion H; subst. now apply source_files_of_sound in Hf.
Qed.

Lemma C10_translated_files_are_skipped_witness :
  _get_files_to_process Samples.fs Samples.settings
  = ([LogDebug "Found file: %s" "docs/readme.md";
      LogDebug "Found file: %s" "docs/readme_translated.md";
      LogDebug "Found file: %s" "docs/guide.md";
      LogInfo "Found %s files to process: %s" ["2"; "readme.md, guide.md"]],
     Return [Samples.readme; Samples.guide])
  /\ contains "_translated" (name Samples.guide) = false.
Proof.
  split; [reflexivity|].
  apply (C10_translated_files_are_skipped
           Samples.fs Samples.settings
           [LogDebug "Found file: %s" "docs/readme.md";
            LogDebug "Found file: %s" "docs/readme_translated.md";
            LogDebug "Found file: %s" "docs/guide.md";
            LogInfo "Found %s files to process: %s" ["2"; "readme.md, guide.md"]]
           [Samples.readme; Samples.guide]); [reflexivity | now right; left].
Defined.

End ApplicationFacts.

(* ================================================================== *)
(** ** The decoder *)

Lemma get_with_get {R} (key : string) (f : pyval -> R) (d : pydict) :
  get_with key f d = option_map f (get key d).
Proof.
  induction d as [|[k v] d IH]; simpl; [reflexivity|].
  destruct (String.eqb k key); [reflexivity | exact IH].
Qed.

(** The children the loop of [validate] stores are the ones
    [decode_child] makes, in order, up to the first that raises. *)
Lemma parse_children_list (B : builtins) (l : list pyval) :
  (ps <- mapM (parse_child (decode B)) l ;; Return (map fst ps))
  = mapM (decode_child B) l.
Proof.
  induction l as [|x l IH]; simpl; [reflexivity|].
  unfold parse_child at 1. unfold decode_child at 1.
  destruct (as_child (decode B x)) as [c|e]; simpl; [|reflexivity].
  rewrite <- IH.
  destruct (mapM (parse_child (decode B)) l) as [ps|e]; reflexivity.
Qed.

(** [validate] on a dict whose ['children'] is a non-empty list: each
    child is decoded in turn and the list of the results is stored. *)
Lemma validate_children_list (B : builtins) (values : pydict)
      (x : pyval) (l : list pyval) :
  get "children" values = Some (PList (x :: l)) ->
  validate B values
  = (blocks <- mapM (decode_child B) (x :: l) ;; Return (Some blocks)).
Proof.
  intros H. unfold validate, validate_with.
  rewrite get_with_get, H. cbn [option_map truthy parse_children].
  rewrite <- parse_children_list.
  destruct (mapM (parse_child (decode B)) (x :: l)); reflexivity.
Qed.

(** X8. [validate] leaves a dict without ['children'], or with falsy
    children (an empty list, [None]), as it is, and raises nothing. *)
Lemma validate_no_children (B : builtins) (values : pydict) :
  match get "children" values with
  | None => True
  | Some children => truthy children = false
  end ->
  validate B values = Return None.
Proof.
  intros H. unfold validate, validate_with. rewrite get_with_get.
  destruct (get "children" values) as [children|]; simpl; [|reflexivity].
  now rewrite H.
Qed.

(** A child whose discriminant is a string bound to nothing in the
    module raises the [ValueError] of [validate]. *)
Lemma decode_child_unknown (B : builtins) (d : pydict) (block_type : string) :
  get "block_type" d = Some (PStr block_type) ->
  lookup_global block_type = None ->
  decode_child B (PDict d) = Raise (UnknownBlockType (PStr block_type)).
Proof.
  intros Hget Hlook. unfold decode_child. simpl. unfold child_of_dict.
  now rewrite Hget, Hlook.
Qed.

(** A child whose discriminant is bound in the module to something that
    is not a class raises a [TypeError] instead. *)
Lemma decode_child_not_callable (B : builtins) (d : pydict)
      (block_type : string) (g : global) :
  get "block_type" d = Some (PStr block_type) ->
  lookup_global block_type = Some g ->
  (forall c, g <> GClass c) ->
  decode_child B (PDict d) = Raise (TypeError (not_callable block_type g)).
Proof.
  intros Hget Hlook Hg. unfold decode_child. simpl. unfold child_of_dict.
  rewrite Hget, Hlook. destruct g; try reflexivity. now destruct (Hg c).
Qed.

Lemma mapM_app_raise {A C} (f : A -> outcome C) (before after : list A)
      (done : list C) (x : A) (e : exc) :
  mapM f before = Return done ->
  f x = Raise e ->
  mapM f (before ++ x :: after)%list = Raise e.
Proof.
  revert done; induction before as [|a before IH]; intros done Hb Hx; simpl.
  - now rewrite Hx.
  - simpl in Hb. destruct (f a) as [y|e0]; simpl in *; [|discriminate].
    destruct (mapM f before) as [ys|e0] eqn:Hys; simpl in *; [|discriminate].
    now rewrite (IH ys eq_refl Hx).
Qed.

(** X7. [validate] fails with the [ValueError] for an unknown block
    type at the first child whose discriminant is bound to nothing in
    the module, when the children before it decode; the children after
    it are not looked at. *)
Lemma validate_unknown_block_type
      (B : builtins) (values : pydict) (before after : list pyval)
      (done : list child) (d : pydict) (block_type : string) :
  get "children" values = Some (PList (before ++ PDict d :: after)%list) ->
  mapM (decode_child B) before = Return done ->
  get "block_type" d = Some (PStr block_type) ->
  lookup_global block_type = None ->
  validate B values = Raise (UnknownBlockType (PStr block_type)).
Proof.
  intros Hc Hb Hget Hlook.
  assert (Hne : exists x l, (before ++ PDict d :: after)%list = x :: l).
  { destruct before; simpl; eauto. }
  destruct Hne as [x [l Hxl]].
  rewrite Hxl in Hc. rewrite (validate_children_list B values x l Hc).
  rewrite <- Hxl.
  rewrite (mapM_app_raise _ before after done (PDict d) _ Hb
             (decode_child_unknown B d block_type Hget Hlook)).
  reflexivity.
Qed.

(** The names of the module's namespace that are not block kinds. *)
Lemma names_not_block_kinds :
  forallb (fun name => negb (names_block_kind name))
          ["BaseBlock"; "Translatable"; "pydantic"; "Optional"; "__name__"]
  = true
  /\ forallb (fun name => match lookup_global name with
                          | Some _ => true
                          | None => false
                          end)
             ["BaseBlock"; "Translatable"; "pydantic"; "Optional"; "__name__"]
     = true.
Proof. split; reflexivity. Qed.

(** C6 (evaluation at the failing inputs). [validate] looks the
    discriminant up in the module's namespace, not in the set of block
    kinds. For the discriminant BaseBlock, which names no block kind, it
    builds a node, an instance of the abstract base, whose rendering
    raises; for the discriminant pydantic it fails with a [TypeError],
    not with the error for an unknown block type. *)
Theorem C6_non_kind_discriminants (B : builtins) :
  names_block_kind "BaseBlock" = false
  /\ validate B [("children", PList [PDict [("block_type", PStr "BaseBlock")]])]
     = Return (Some [Inst BaseBlock])
  /\ render BaseBlock = Raise NotImplementedError
  /\ names_block_kind "pydantic" = false
  /\ validate B [("children", PList [PDict [("block_type", PStr "pydantic")]])]
     = Raise (TypeError "'module' object is not callable").
Proof. repeat split. Qed.

(** The mixin's name is accepted as a discriminant too. *)
Example validate_Translatable_discriminant (B : builtins) :
  validate B [("children",
               PList [PDict [("block_type", PStr "Translatable");
                             ("text", PStr "Hola")]])]
  = Return (Some [Inst (Translatable "Hola" None)]).
Proof. reflexivity. Qed.

(** A discriminant outside the namespace does raise the error for an
    unknown block type. *)
Example validate_unknown_example (B : builtins) :
  validate B [("children",
               PList [dict (TextBlock "a" None false false);
                      PDict [("block_type", PStr "VideoBlock")]])]
  = Raise (UnknownBlockType (PStr "VideoBlock")).
Proof. reflexivity. Qed.

(** *** The popped discriminant *)

Lemma get_remove_other (key : string) (d : pydict) :
  String.eqb key "block_type" = false ->
  get key (remove "block_type" d) = get key d.
Proof.
  intros Hk. induction d as [|[k v] d IH]; simpl; [reflexivity|].
  destruct (String.eqb k "block_type") eqn:Hb.
  - apply String.eqb_eq in Hb. subst k.
    rewrite String.eqb_sym, Hk. exact IH.
  - simpl. destruct (String.eqb k key); [reflexivity | exact IH].
Qed.

(** pydantic ignores a keyword that names no field, so calling the class
    on the dict after [pop('block_type')] or before it is the same. *)
Lemma construct_pop (B : builtins) (c : cls) (d : pydict) :
  construct B c (remove "block_type" d) = construct B c d.
Proof.
  unfold construct, construct_with, validate_with, text_field, fields,
    Translatable_fields.
  rewrite !get_with_get.
  destruct c; rewrite ?get_remove_other by reflexivity; reflexivity.
Qed.

(** The body of the loop of [validate], as the source has it. *)
Lemma decode_child_dict (B : builtins) (d : pydict) :
  decode_child B (PDict d)
  = match get "block_type" d with
    | None => Return (Plain (PDict d))
    | Some (PStr block_type) =>
        match lookup_global block_type with
        | None => Raise (UnknownBlockType (PStr block_type))
        | Some (GClass c) => construct B c (remove "block_type" d)
        | Some g => Raise (TypeError (not_callable block_type g))
        end
    | Some (PList l) => Raise (TypeError "unhashable type: 'list'")
    | Some (PDict k) => Raise (TypeError "unhashable type: 'dict'")
    | Some block_type => Raise (UnknownBlockType block_type)
    end.
Proof.
  unfold decode_child. simpl. unfold child_of_dict.
  destruct (get "block_type" d) as [[| | |name| | |]|]; try reflexivity.
  destruct (lookup_global name) as [[c| | | ]|]; try reflexivity.
  now rewrite construct_pop.
Qed.

(** A value that is not a dict is kept as it is. *)
Lemma decode_child_not_dict (B : builtins) (x : pyval) :
  (forall d, x <> PDict d) -> decode_child B x = Return (Plain x).
Proof.
  intros H. destruct x; try reflexivity. now destruct (H d).
Qed.

(* ================================================================== *)
(** ** The round trip *)

(** C3 (evaluation at the failing input). [dict] tags the blocks under
    [LinkBlock.text] like any other, but [validate] decodes only what is
    under ['children']: on the encoding of a link with one text block it
    leaves the dict as it is, with the encoded text block still a dict
    under ['text'], and decoding the encoding does not give the link
    back. *)
Theorem C3_link_text_not_decoded (B : builtins) :
  exists values,
    dict Samples.link = PDict values
    /\ get "text" values = Some (PList [dict Samples.home])
    /\ validate B values = Return None
    /\ decode_child B (dict Samples.link) <> Return (Inst Samples.link).
Proof.
  eexists. split; [reflexivity|].
  split; [reflexivity|]. split; [reflexivity | discriminate].
Qed.

(** What pydantic builds from that encoding: a [LinkBlock] whose [text]
    holds the dict. *)
Example decode_link_with_text (B : builtins) :
  decode_child B (dict Samples.link)
  = Return (Loose CLinkBlock "text" [Plain (dict Samples.home)]).
Proof. reflexivity. Qed.

(** An [ImageBlock] built without [alt] holds the class [str] there; its
    encoding does not decode. *)
Example image_default_alt_not_decoded (B : builtins) :
  construct B CImageBlock [("src", PStr "cat.png")]
  = Return (Inst (ImageBlock "cat.png" AltStrClass None))
  /\ decode_child B (dict (ImageBlock "cat.png" AltStrClass None))
     = Raise (ValidationError CImageBlock).
Proof. split; reflexivity. Qed.

(** *** Trees that do come back *)







Lemma mapM_map_Return {A C D} (f : C -> outcome D) (enc : A -> C) (g : A -> D)
      (l : list A) :
  (forall x, In x l -> f (enc x) = Return (g x)) ->
  mapM f (map enc l) = Return (map g l).
Proof.
  induction l as [|x l IH]; intros H; simpl; [reflexivity|].
  rewrite (H x (or_introl eq_refl)). simpl.
  rewrite IH; [reflexivity|]. intros y Hy. apply H. now right.
Qed.





(* ================================================================== *)
(** ** Further properties of the blocks *)

(** X2. For a block that says it should be translated, the text to
    translate is there only for a [TextBlock]: [get_data_to_translate]
    returns its text, while for a [HeadingBlock] and for the mixin
    itself the call raises [NotImplementedError]. The attribute is
    never missing on such a block. *)
Theorem get_data_to_translate_when_due (b : block) :
  should_be_translated b = true ->
  match b with
  | TextBlock text _ _ _ => get_data_to_translate b = Return text
  | _ => get_data_to_translate b = Raise NotImplementedError
  end.
Proof.
  destruct b; simpl; intros H; try discriminate; reflexivity.
Qed.

Lemma get_data_to_translate_when_due_witness :
  get_data_to_translate (TextBlock "Hola" None false false) = Return "Hola".
Proof.
  apply (get_data_to_translate_when_due (TextBlock "Hola" None false false)).
  reflexivity.
Defined.




(** A level of 2 to the power 63 is one that does not fit, a level
    below zero one that gives no number sign. *)
Example render_HeadingBlock_bounds :
  render (HeadingBlock "T" None (2 ^ 63)) = Raise (OtherException "OverflowError")
  /\ render (HeadingBlock "T" None (-3)) = Return " T"
  /\ render (HeadingBlock "T" None 2) = Return "## T".
Proof. repeat split. Qed.

(** X28. Every block that is not a [RawDataBlock] is truthy, a list
    without items included. A [RawDataBlock] whose data is [None], a
    bool, an int or a str is falsy exactly when the data is [None],
    [False], 0 or the empty string; its rendering is then the word
    None, the word False, 0 or the empty string, in this order. *)
Theorem falsy_block_is_raw_data (b : block) :
  bool_of_block b = false <->
  exists name data,
    b = RawDataBlock name data
    /\ In (data, render b)
          [(SNone, Return "None"); (SBool false, Return "False");
           (SInt 0, Return "0"); (SStr "", Return "")].
Proof.
  split.
  - destruct b as [ | |name data| | | | | | | | | ]; try discriminate.
    intros H. exists name, data. split; [reflexivity|].
    destruct data as [|[|]|z|[|a s]]; try discriminate H; simpl; auto.
    simpl in H. apply negb_false_iff, Z.eqb_eq in H. subst z. simpl. auto.
  - intros [name [data [Hb Hin]]]. subst b. simpl in Hin.
    destruct Hin as [H|[H|[H|[H|[]]]]]; inversion H; reflexivity.
Qed.

(* ================================================================== *)
(** ** Further properties of the codec *)

(** X5. [dict] stores the name of the block's own class under
    ['block_type'] for every subclass of [BaseBlock], and that name is
    bound to this class in the module, so that [validate] finds the
    class again; an instance of the plain mixin [Translatable] gets no
    discriminant. *)
Theorem dict_block_type (b : block) :
  exists data,
    dict b = PDict data
    /\ get "block_type" data
       = match class_of b with
         | CTranslatable => None
         | c => Some (PStr (class_name c))
         end
    /\ lookup_global (class_name (class_of b)) = Some (GClass (class_of b)).
Proof.
  destruct b; eexists; (split; [reflexivity|]); split; reflexivity.
Qed.

(** X6. [validate] keeps the children in their order and drops none:
    when it stores a list under ['children'], the list has the length of
    the one it was given, and its entry at each position is what the
    loop makes of the child at that position. *)
Theorem validate_children_in_order (B : builtins) (values : pydict)
        (l : list pyval) (blocks : list child) :
  get "children" values = Some (PList l) ->
  validate B values = Return (Some blocks) ->
  length blocks = length l
  /\ forall i x, nth_error l i = Some x ->
       exists c, decode_child B x = Return c /\ nth_error blocks i = Some c.
Proof.
  intros Hget Hval. destruct l as [|x l].
  - unfold validate, validate_with in Hval.
    rewrite get_with_get, Hget in Hval. discriminate Hval.
  - rewrite (validate_children_list B values x l Hget) in Hval.
    destruct (mapM (decode_child B) (x :: l)) as [cs|e] eqn:Hcs;
      simpl in Hval; [|discriminate].
    inversion Hval; subst cs. split.
    + apply (mapM_length _ _ _ Hcs).
    + apply (mapM_nth _ _ _ Hcs).
Qed.

Lemma validate_children_in_order_witness :
  length [Inst Samples.home; Plain (PStr "tail")]
  = length [dict Samples.home; PStr "tail"]
  /\ forall i x, nth_error [dict Samples.home; PStr "tail"] i = Some x ->
       exists c, decode_child MoreSamples.builtins_ x = Return c
                 /\ nth_error [Inst Samples.home; Plain (PStr "tail")] i = Some c.
Proof.
  apply (validate_children_in_order MoreSamples.builtins_
           [("children", PList [dict Samples.home; PStr "tail"])]
           [dict Samples.home; PStr "tail"]
           [Inst Samples.home; Plain (PStr "tail")]); reflexivity.
Defined.

Lemma validate_unknown_block_type_witness :
  validate MoreSamples.builtins_
           [("children",
             PList ([dict Samples.home]
                      ++ PDict [("block_type", PStr "VideoBlock")] :: [PNone])%list)]
  = Raise (UnknownBlockType (PStr "VideoBlock")).
Proof.
  apply (validate_unknown_block_type MoreSamples.builtins_
           [("children",
             PList ([dict Samples.home]
                      ++ PDict [("block_type", PStr "VideoBlock")] :: [PNone])%list)]
           [dict Samples.home] [PNone] [Inst Samples.home]
           [("block_type", PStr "VideoBlock")] "VideoBlock"); reflexivity.
Defined.

Lemma validate_no_children_witness :
  validate MoreSamples.builtins_ [("code", PStr "x = 1"); ("children", PList [])]
  = Return None.
Proof.
  apply (validate_no_children MoreSamples.builtins_
           [("code", PStr "x = 1"); ("children", PList [])]).
  reflexivity.
Defined.

Lemma decode_child_untagged (B : builtins) (x : pyval) :
  untagged x = true -> decode_child B x = Return (Plain x).
Proof.
  destruct x as [| | | | | |d]; try reflexivity.
  unfold untagged, has_key. intros H. rewrite decode_child_dict.
  now destruct (get "block_type" d).
Qed.

(** X9. Children that are not tagged dicts go through [validate]
    untouched: when no child of a non-empty list is a dict with the key
    ['block_type'], the list stored under ['children'] holds the very
    same values, in the same order. *)
Theorem validate_untagged_children (B : builtins) (values : pydict)
        (x : pyval) (l : list pyval) :
  get "children" values = Some (PList (x :: l)) ->
  forallb untagged (x :: l) = true ->
  validate B values = Return (Some (map Plain (x :: l))).
Proof.
  intros Hget Hall. rewrite (validate_children_list B values x l Hget).
  rewrite <- (map_id (x :: l)) at 1.
  rewrite (mapM_map_Return (decode_child B) (fun v => v) Plain); [reflexivity|].
  intros v Hv. apply decode_child_untagged.
  rewrite forallb_forall in Hall. now apply Hall.
Qed.

Lemma validate_untagged_children_witness :
  validate MoreSamples.builtins_
           [("children", PList [PStr "a"; PDict [("text", PStr "b")]])]
  = Return (Some (map Plain [PStr "a"; PDict [("text", PStr "b")]])).
Proof.
  apply (validate_untagged_children MoreSamples.builtins_
           [("children", PList [PStr "a"; PDict [("text", PStr "b")]])]
           (PStr "a") [PDict [("text", PStr "b")]]); reflexivity.
Defined.

(** X10. When ['children'] is a truthy value that cannot be iterated
    over (a non-zero number, [True], a class), [validate] raises a
    [TypeError]. *)
Theorem validate_children_not_iterable (B : builtins) (values : pydict)
        (children : pyval) :
  get "children" values = Some children ->
  not_iterable children = true ->
  exists msg, validate B values = Raise (TypeError msg).
Proof.
  intros Hget Hni. unfold validate, validate_with.
  rewrite get_with_get, Hget. cbn [option_map].
  destruct children as [|b|z| | | | ]; try discriminate;
    unfold not_iterable in Hni; rewrite Hni; simpl; eauto.
Qed.

Lemma validate_children_not_iterable_witness :
  exists msg,
    validate MoreSamples.builtins_ [("children", PInt 3)] = Raise (TypeError msg).
Proof.
  apply (validate_children_not_iterable MoreSamples.builtins_
           [("children", PInt 3)] (PInt 3)); reflexivity.
Defined.

Lemma lookup_global_name (name : string) (c : cls) :
  lookup_global name = Some (GClass c) -> name = class_name c.
Proof.
  unfold lookup_global, module_globals. cbn [app map classes lookup_global_in].
  repeat match goal with
         | |- context [String.eqb ?k name] =>
             let E := fresh "E" in
             destruct (String.eqb k name) eqn:E;
             [ apply String.eqb_eq in E; subst name; intros H;
               first [discriminate H | now inversion H] | ]
         end.
  discriminate.
Qed.

Lemma fields_class (B : builtins) (c : cls) (kwargs : pydict)
      (children : option (list (child * outcome unit)))
      (text : option (option (list child))) (b : block) :
  fields B c kwargs children text = Some (Inst b) -> class_of b = c.
Proof.
  unfold fields, with_list, Translatable_fields.
  destruct c;
    repeat match goal with
           | |- context [match ?x with _ => _ end] => destruct x
           end;
    intros H; try discriminate H; now inversion H.
Qed.

(** X11. A tagged dict is never decoded into an instance of another
    class: when the loop of [validate] makes a block of a dict whose
    ['block_type'] is a string, that string is the name of the block's
    class. *)
Theorem decoded_class (B : builtins) (d : pydict) (block_type : string)
        (b : block) :
  get "block_type" d = Some (PStr block_type) ->
  decode_child B (PDict d) = Return (Inst b) ->
  block_type = class_name (class_of b).
Proof.
  intros Hget Hdec. rewrite decode_child_dict, Hget in Hdec.
  destruct (lookup_global block_type) as [[c| | | ]|] eqn:Hlook;
    try discriminate Hdec.
  apply lookup_global_name in Hlook. subst block_type.
  rewrite construct_pop in Hdec. unfold construct, construct_with in Hdec.
  destruct (match c with
            | CTranslatable => Return None
            | _ => validate_with (decode B) d
            end) as [children|e]; [|discriminate Hdec].
  destruct (fields B c d children (text_field (decode B) d)) as [inst|] eqn:Hf;
    [|discriminate Hdec].
  inversion Hdec; subst inst. now rewrite (fields_class _ _ _ _ _ _ Hf).
Qed.

Lemma decoded_class_witness :
  "TextBlock" = class_name (class_of Samples.home).
Proof.
  apply (decoded_class MoreSamples.builtins_
           [("text", PStr "home"); ("translated_text", PNone);
            ("strong", PBool false); ("emphasis", PBool false);
            ("block_type", PStr "TextBlock")]
           "TextBlock" Samples.home); reflexivity.
Defined.

(** *** What the decoder raises *)

(** Induction on plain values, with the property at hand for the
    elements of a list and for the values of a dict. *)
Lemma pyval_nested_ind (P : pyval -> Prop) :
  P PNone -> (forall b, P (PBool b)) -> (forall z, P (PInt z)) ->
  (forall s, P (PStr s)) -> P PStrClass ->
  (forall l, Forall P l -> P (PList l)) ->
  (forall d, Forall (fun kv => P (snd kv)) d -> P (PDict d)) ->
  forall v, P v.
Proof.
  intros HNone HBool HInt HStr HClass HList HDict.
  exact (fix go (v : pyval) : P v :=
           match v with
           | PNone => HNone
           | PBool b => HBool b
           | PInt z => HInt z
           | PStr s => HStr s
           | PStrClass => HClass
           | PList l =>
               HList l ((fix all (l : list pyval) : Forall P l :=
                           match l with
                           | [] => Forall_nil P
                           | x :: l' => Forall_cons x (go x) (all l')
                           end) l)
           | PDict d =>
               HDict d ((fix all (d : pydict)
                           : Forall (fun kv => P (snd kv)) d :=
                           match d with
                           | [] => Forall_nil _
                           | kv :: d' =>
                               Forall_cons kv (go (snd kv)) (all d')
                           end) d)
           end).
Qed.

Lemma get_In (key : string) (d : pydict) (v : pyval) :
  get key d = Some v -> In (key, v) d.
Proof.
  induction d as [|[k x] d IH]; simpl; [discriminate|].
  destruct (String.eqb k key) eqn:E.
  - apply String.eqb_eq in E. subst k. intros H. inversion H. now left.
  - intros H. right. now apply IH.
Qed.

Lemma mapM_Raise {A C} (f : A -> outcome C) (l : list A) (e : exc) :
  mapM f l = Raise e -> exists x, In x l /\ f x = Raise e.
Proof.
  induction l as [|x l IH]; [discriminate|].
  rewrite mapM_cons. destruct (f x) as [y|e0] eqn:Hx; simpl.
  - destruct (mapM f l) as [ys|e1]; simpl; [discriminate|].
    intros H. inversion H; subst e1.
    destruct (IH eq_refl) as [z [Hz Hf]]. exists z. split; [now right | exact Hf].
  - intros H. inversion H; subst e0. exists x. split; [now left | exact Hx].
Qed.

Lemma decoder_error_caught (e : exc) :
  decoder_error e = true -> pydantic_catches e = true.
Proof. destruct e; simpl; congruence. Qed.

(** The loop of [validate] on a dict raises only decoder errors when
    the values of the dict do, as children and as lists of children. *)
Lemma validate_with_errors (B : builtins) (d : pydict) :
  Forall (fun kv =>
            match snd kv with
            | PList l =>
                Forall (fun x => raises_decoder_errors (as_child (decode B x))) l
            | _ => True
            end) d ->
  raises_decoder_errors (validate_with (decode B) d).
Proof.
  intros Hd e. unfold validate_with. rewrite get_with_get.
  destruct (get "children" d) as [children|] eqn:Hget; simpl; [|discriminate].
  destruct (truthy children); [|discriminate].
  apply get_In in Hget. rewrite Forall_forall in Hd.
  specialize (Hd _ Hget). simpl in Hd.
  destruct children as [| | | | |l|k]; simpl; try discriminate;
    try (intros H; now inversion H).
  destruct (mapM (parse_child (decode B)) l) as [ps|e0] eqn:Hl; simpl;
    [discriminate|].
  intros H. inversion H; subst e0.
  destruct (mapM_Raise _ _ _ Hl) as [x [Hx Hfx]].
  rewrite Forall_forall in Hd. apply (Hd x Hx).
  unfold parse_child in Hfx.
  destruct (as_child (decode B x)) as [c|e1]; simpl in Hfx;
    [discriminate Hfx | now inversion Hfx].
Qed.

Lemma decode_errors (B : builtins) (v : pyval) :
  (raises_decoder_errors (as_child (decode B v))
   /\ raises_decoder_errors (as_values (decode B v)))
  /\ match v with
     | PList l =>
         Forall (fun x => raises_decoder_errors (as_child (decode B x))) l
     | _ => True
     end.
Proof.
  induction v as [ | | | | |l IH|d IH] using pyval_nested_ind;
    try (split; [split; intros e H; discriminate H | exact I]).
  - split; [split; intros e H; discriminate H|].
    eapply Forall_impl; [|exact IH]. intros x [[Hx _] _]. exact Hx.
  - assert (Hval : raises_decoder_errors (validate_with (decode B) d)).
    { apply validate_with_errors. eapply Forall_impl; [|exact IH].
      intros kv [_ Hkv]. exact Hkv. }
    split; [|exact I]. split.
    + intros e. cbn [decode as_child]. unfold child_of_dict.
      destruct (get "block_type" d) as [[| | |name| | |]|];
        try discriminate; try (intros H; now inversion H).
      destruct (lookup_global name) as [[c| | | ]|];
        try (intros H; now inversion H).
      unfold construct_with.
      destruct (match c with
                | CTranslatable => Return None
                | _ => validate_with (decode B) d
                end) as [children|e0] eqn:Hc.
      * destruct (fields B c d children (text_field (decode B) d));
          [discriminate | intros H; now inversion H].
      * intros H. inversion H. unfold wrap.
        assert (He0 : decoder_error e0 = true).
        { destruct c; try (apply Hval; exact Hc). discriminate Hc. }
        now rewrite (decoder_error_caught _ He0).
    + intros e. cbn [decode as_values].
      destruct (validate_with (decode B) d) as [r|e0] eqn:Hv; simpl;
        [discriminate|].
      intros H. inversion H; subst e0. now apply Hval.
Qed.

(** X12. Whatever [validate] is given, it raises nothing but the
    [ValueError] for an unknown block type, a [TypeError], or the
    [ValidationError] of a child that could not be built. *)
Theorem validate_raises_decoder_errors (B : builtins) (values : pydict)
        (e : exc) :
  validate B values = Raise e ->
  (exists block_type, e = UnknownBlockType block_type)
  \/ (exists msg, e = TypeError msg)
  \/ (exists c, e = ValidationError c).
Proof.
  intros H.
  assert (He : decoder_error e = true).
  { apply (proj2 (proj1 (decode_errors B (PDict values)))).
    cbn [decode as_values]. unfold validate in H.
    destruct (validate_with (decode B) values); simpl in *;
      [discriminate H | now inversion H]. }
  destruct e; try discriminate He; eauto.
Qed.

Lemma validate_raises_decoder_errors_witness :
  (exists block_type,
      UnknownBlockType (PStr "VideoBlock") = UnknownBlockType block_type)
  \/ (exists msg, UnknownBlockType (PStr "VideoBlock") = TypeError msg)
  \/ (exists c, UnknownBlockType (PStr "VideoBlock") = ValidationError c).
Proof.
  apply (validate_raises_decoder_errors MoreSamples.builtins_
           [("children", PList [PDict [("block_type", PStr "VideoBlock")]])]).
  reflexivity.
Defined.

(** X13. Building a block of class [c] from keyword arguments fails in
    one way only, with the [ValidationError] of [c]: an error of
    [validate] on the way, an unknown block type among the children
    included, is wrapped into it. *)
Theorem construct_raises_ValidationError (B : builtins) (c : cls)
        (kwargs : pydict) (e : exc) :
  construct B c kwargs = Raise e -> e = ValidationError c.
Proof.
  unfold construct, construct_with.
  destruct (match c with
            | CTranslatable => Return None
            | _ => validate_with (decode B) kwargs
            end) as [children|e0] eqn:Hc.
  - destruct (fields B c kwargs children (text_field (decode B) kwargs));
      [discriminate | intros H; now inversion H].
  - intros H. inversion H. unfold wrap.
    assert (He0 : decoder_error e0 = true).
    { destruct c;
        try (apply (proj2 (proj1 (decode_errors B (PDict kwargs))));
             cbn [decode as_values]; now rewrite Hc).
      discriminate Hc. }
    now rewrite (decoder_error_caught _ He0).
Qed.

Lemma construct_raises_ValidationError_witness :
  ValidationError CListBlock = ValidationError CListBlock.
Proof.
  apply (construct_raises_ValidationError MoreSamples.builtins_ CListBlock
           [("children", PList [PDict [("block_type", PStr "VideoBlock")]])]).
  reflexivity.
Defined.

(** X14. Whenever a [TextBlock] is built from keyword arguments whose
    ['text'] is a list, its text is the pieces of the list, each as
    [str] prints it, joined without a separator. *)
Theorem construct_TextBlock_text_list (B : builtins) (kwargs : pydict)
        (pieces : list pyval) (b : block) :
  get "text" kwargs = Some (PList pieces) ->
  construct B CTextBlock kwargs = Return (Inst b) ->
  exists translated_text strong emphasis,
    b = TextBlock (join "" (map (py_str B) pieces))
                  translated_text strong emphasis.
Proof.
  intros Hget. unfold construct, construct_with.
  destruct (validate_with (decode B) kwargs) as [children|e]; [|discriminate].
  unfold fields. rewrite Hget.
  cbn [option_map validate_text required str_validator].
  destruct (optional str_validator (get "translated_text" kwargs)) as [tr|];
    [|discriminate].
  destruct (defaulted false bool_validator (get "strong" kwargs)) as [s|];
    [|discriminate].
  destruct (defaulted false bool_validator (get "emphasis" kwargs)) as [e|];
    [|discriminate].
  intros H. inversion H. eauto.
Qed.

Lemma construct_TextBlock_text_list_witness :
  exists translated_text strong emphasis,
    TextBlock "Hola, 2 mundos" None true false
    = TextBlock (join "" (map (py_str MoreSamples.builtins_)
                              [PStr "Hola, "; PInt 2; PStr " mundos"]))
                translated_text strong emphasis.
Proof.
  apply (construct_TextBlock_text_list MoreSamples.builtins_
           [("text", PList [PStr "Hola, "; PInt 2; PStr " mundos"]);
            ("strong", PStr "yes")]
           [PStr "Hola, "; PInt 2; PStr " mundos"]
           (TextBlock "Hola, 2 mundos" None true false)); reflexivity.
Defined.


(* ================================================================== *)
(** ** Further properties of the driver *)

Module RunFacts.
Import Application Run.

Ltac case_process_file :=
  unfold process_file, write_and_report; cbv zeta;
  repeat match goal with
         | |- context [match ?x with _ => _ end] =>
             let E := fresh "E" in destruct x eqn:E
         end.

(** X15. On every path through [process_file] the provider is left as
    often as it was entered, and that is at most once: the [with] block
    releases it whether the translation returns, fails or is
    interrupted, and it is not touched when the file does not load or
    is skipped. *)
Theorem provider_released
        {document provider : Type} (W : collaborators document provider)
        (settings : Settings) (file : path) :
  count is_exited (fst (process_file W settings file))
  = count is_entered (fst (process_file W settings file))
  /\ (count is_entered (fst (process_file W settings file)) <= 1)%nat.
Proof.
  case_process_file; unfold count; simpl; split; auto.
Qed.

(** X16. When the document cannot be loaded, and the loader raises an
    [Exception], [process_file] logs the error and returns: the
    provider is not entered, nothing is translated or written. *)
Theorem load_failure_is_contained
        {document provider : Type} (W : collaborators document provider)
        (settings : Settings) (file : path) (e : exc) :
  from_file W file (ignore_cache settings) = Raise e ->
  is_Exception e = true ->
  process_file W settings file
  = ([LogInfo "Processing file: %s" [str_of_path file];
      LogError "Error processing file: %s" (str_of_path file);
      LogExc e],
     Return tt).
Proof.
  intros Hload He. unfold process_file. now rewrite Hload, He.
Qed.

Lemma load_failure_is_contained_witness :
  process_file MoreSamples.unreadable Samples.settings Samples.readme
  = ([LogInfo "Processing file: %s" [str_of_path Samples.readme];
      LogError "Error processing file: %s" (str_of_path Samples.readme);
      LogExc (OtherException "UnicodeDecodeError")],
     Return tt).
Proof.
  apply (load_failure_is_contained MoreSamples.unreadable Samples.settings
           Samples.readme (OtherException "UnicodeDecodeError")); reflexivity.
Defined.

(** X17. A document that says it should not be translated is skipped:
    [process_file] logs that and returns, without entering the provider,
    translating or writing. *)
Theorem skipped_document
        {document provider : Type} (W : collaborators document provider)
        (settings : Settings) (file : path) (doc : document) :
  from_file W file (ignore_cache settings) = Return doc ->
  doc_should_be_translated W doc (new_file settings) (overwrite settings)
    = Return false ->
  process_file W settings file
  = ([LogInfo "Processing file: %s" [str_of_path file];
      LogInfo "Skipping file: %s. Already translated" [name file]],
     Return tt).
Proof.
  intros Hload Hdue. unfold process_file. now rewrite Hload, Hdue.
Qed.

Lemma skipped_document_witness :
  process_file MoreSamples.already_done Samples.settings Samples.readme
  = ([LogInfo "Processing file: %s" [str_of_path Samples.readme];
      LogInfo "Skipping file: %s. Already translated" [name Samples.readme]],
     Return tt).
Proof.
  apply (skipped_document MoreSamples.already_done Samples.settings
           Samples.readme tt); reflexivity.
Defined.

(** X18. When every step returns, [process_file] enters the provider,
    translates, leaves the provider, and only then writes the document
    and reports it, in this order. *)
Theorem processed_document
        {document provider : Type} (W : collaborators document provider)
        (settings : Settings) (file : path)
        (doc : document) (prov : provider) (swallowed : bool) :
  from_file W file (ignore_cache settings) = Return doc ->
  doc_should_be_translated W doc (new_file settings) (overwrite settings)
    = Return true ->
  enter W file = Return prov ->
  translate W doc prov = Return tt ->
  exit_ W file None = Return swallowed ->
  write W doc (new_file settings) (save_temp_on_complete settings) = Return tt ->
  process_file W settings file
  = ([LogInfo "Processing file: %s" [str_of_path file];
      ProviderEntered; DocumentTranslated file; ProviderExited;
      DocumentWritten file; Echo ("Processed file: " ++ name file)],
     Return tt).
Proof.
  intros Hload Hdue Henter Htr Hexit Hwrite.
  unfold process_file, write_and_report.
  now rewrite Hload, Hdue, Henter, Htr, Hexit, Hwrite.
Qed.

Lemma processed_document_witness :
  process_file MoreSamples.working Samples.settings Samples.readme
  = ([LogInfo "Processing file: %s" [str_of_path Samples.readme];
      ProviderEntered; DocumentTranslated Samples.readme; ProviderExited;
      DocumentWritten Samples.readme;
      Echo ("Processed file: " ++ name Samples.readme)],
     Return tt).
Proof.
  apply (processed_document MoreSamples.working Samples.settings
           Samples.readme tt tt false); reflexivity.
Defined.



(** What [process_file] writes is the file it was given. *)
Lemma process_file_written
      {document provider : Type} (W : collaborators document provider)
      (settings : Settings) (file f : path) :
  In (DocumentWritten f) (fst (process_file W settings file)) -> f = file.
Proof.
  case_process_file; simpl; intros H;
    repeat (destruct H as [H|H]; try discriminate H);
    try contradiction; now inversion H.
Qed.

(** X20. [process_file] calls [document.write] only if the document was
    loaded and said it should be translated, and only after the
    provider has been entered and left: in the log the entry of the
    write comes after the one of the provider's exit. *)
Theorem written_only_when_due
        {document provider : Type} (W : collaborators document provider)
        (settings : Settings) (file f : path) :
  In (DocumentWritten f) (fst (process_file W settings file)) ->
  (exists doc,
      from_file W file (ignore_cache settings) = Return doc
      /\ doc_should_be_translated W doc (new_file settings)
                                  (overwrite settings) = Return true)
  /\ exists before after,
       fst (process_file W settings file)
       = (before ++ DocumentWritten f :: after)%list
       /\ In ProviderEntered before
       /\ In ProviderExited before
       /\ forall g, ~ In (DocumentWritten g) before.
Proof.
  case_process_file; simpl; intros H;
    repeat (destruct H as [H|H]; try discriminate H);
    try contradiction;
    inversion H; subst;
    (split; [eauto|]);
    match goal with
    | |- exists before after, ?a :: ?b :: ?c :: ?d :: DocumentWritten ?f :: ?r = _ /\ _ =>
        exists [a; b; c; d], r
    | |- exists before after, ?a :: ?b :: ?c :: DocumentWritten ?f :: ?r = _ /\ _ =>
        exists [a; b; c], r
    end;
    (split; [reflexivity|]); simpl;
    (split; [tauto|]); (split; [tauto|]);
    intros g Hg; repeat (destruct Hg as [Hg|Hg]; try discriminate Hg);
    contradiction.
Qed.

Lemma written_only_when_due_witness :
  (exists doc,
      from_file MoreSamples.working Samples.readme
                (ignore_cache Samples.settings) = Return doc
      /\ doc_should_be_translated MoreSamples.working doc
           (new_file Samples.settings) (overwrite Samples.settings)
         = Return true)
  /\ exists before after,
       fst (process_file MoreSamples.working Samples.settings Samples.readme)
       = (before ++ DocumentWritten Samples.readme :: after)%list
       /\ In ProviderEntered before
       /\ In ProviderExited before
       /\ forall g, ~ In (DocumentWritten g) before.
Proof.
  apply (written_only_when_due MoreSamples.working Samples.settings
           Samples.readme Samples.readme).
  simpl. do 4 right. left. reflexivity.
Defined.

(** The logs of the files, one after the other. *)
Lemma process_files_all_return
      {document provider : Type} (W : collaborators document provider)
      (settings : Settings) (files : list path) :
  (forall f, In f files -> snd (process_file W settings f) = Return tt) ->
  process_files W settings files
  = (concat (map (fun f => fst (process_file W settings f)) files), Return tt).
Proof.
  induction files as [|f files IH]; intros Hall; [reflexivity|].
  simpl. specialize (Hall f (or_introl eq_refl)) as Hf.
  destruct (process_file W settings f) as [log r]. simpl in Hf. subst r.
  rewrite IH; [reflexivity|]. intros g Hg. apply Hall. now right.
Qed.

(** X21. The loop of [run_single_process] stops at the first file whose
    processing raises: the files before it are processed in order, the
    exception leaves the loop, and no file after it is touched. *)
Theorem process_files_stops_at_first_raise
        {document provider : Type} (W : collaborators document provider)
        (settings : Settings) (before after : list path) (file : path)
        (e : exc) :
  (forall f, In f before -> snd (process_file W settings f) = Return tt) ->
  snd (process_file W settings file) = Raise e ->
  process_files W settings (before ++ file :: after)%list
  = (concat (map (fun f => fst (process_file W settings f))
                 (before ++ [file])%list),
     Raise e).
Proof.
  induction before as [|f before IH]; intros Hall Hfile; simpl.
  - destruct (process_file W settings file) as [log r]. simpl in Hfile.
    subst r. now rewrite app_nil_r.
  - specialize (Hall f (or_introl eq_refl)) as Hf.
    destruct (process_file W settings f) as [log r]. simpl in Hf. subst r.
    rewrite IH; [reflexivity | | exact Hfile].
    intros g Hg. apply Hall. now right.
Qed.

Lemma process_files_stops_at_first_raise_witness :
  process_files MoreSamples.interrupted Samples.settings
                ([] ++ Samples.readme :: [Samples.guide])%list
  = (concat (map (fun f => fst (process_file MoreSamples.interrupted
                                             Samples.settings f))
                 ([] ++ [Samples.readme])%list),
     Raise (BaseExceptionOnly "KeyboardInterrupt")).
Proof.
  apply (process_files_stops_at_first_raise MoreSamples.interrupted
           Samples.settings [] [Samples.guide] Samples.readme
           (BaseExceptionOnly "KeyboardInterrupt")).
  - intros f H. destruct H.
  - reflexivity.
Defined.

(** X22. When the processing of every file returns, the loop processes
    all of them, in order: its log is the logs of the files one after
    the other, and holds the entry that opens the processing of each
    file. *)
Theorem process_files_processes_all
        {document provider : Type} (W : collaborators document provider)
        (settings : Settings) (files : list path) :
  (forall f, In f files -> snd (process_file W settings f) = Return tt) ->
  process_files W settings files
  = (concat (map (fun f => fst (process_file W settings f)) files), Return tt)
  /\ forall f, In f files ->
       In (LogInfo "Processing file: %s" [str_of_path f])
          (fst (process_files W settings files)).
Proof.
  intros Hall. rewrite (process_files_all_return W settings files Hall).
  split; [reflexivity|]. intros f Hf. cbn [fst].
  apply in_concat. exists (fst (process_file W settings f)).
  split; [apply in_map_iff; eauto|].
  clear. case_process_file; simpl; auto.
Qed.

Lemma process_files_processes_all_witness :
  process_files MoreSamples.unreadable Samples.settings
                [Samples.readme; Samples.guide]
  = (concat (map (fun f => fst (process_file MoreSamples.unreadable
                                             Samples.settings f))
                 [Samples.readme; Samples.guide]),
     Return tt)
  /\ forall f, In f [Samples.readme; Samples.guide] ->
       In (LogInfo "Processing file: %s" [str_of_path f])
          (fst (process_files MoreSamples.unreadable Samples.settings
                              [Samples.readme; Samples.guide])).
Proof.
  apply (process_files_processes_all MoreSamples.unreadable Samples.settings
           [Samples.readme; Samples.guide]).
  intros f H. reflexivity.
Defined.

(** *** The files to process *)

(** The paths the settings name. *)
Lemma get_files_unfold (fs : filesystem) (settings : Settings)
      (paths : list path) :
  match settings_path settings with
  | OnePath p => [p]
  | PathList l => l
  end = paths ->
  _get_files_to_process fs settings
  = match found_files fs paths with
    | (log, Raise e) => (log, Raise e)
    | (log, Return files_to_process) =>
        match (common <- common_path_part (source_files_of files_to_process) ;;
               mapM (fun f => r <- relative_to f common ;; Return (str_of_path r))
                    (source_files_of files_to_process)) with
        | Raise e => (log, Raise e)
        | Return shown =>
            ((log ++ [LogInfo "Found %s files to process: %s"
                        [str_of_Z (Z.of_nat (length (source_files_of files_to_process)));
                         join ", " shown]])%list,
             Return (source_files_of files_to_process))
        end
    end.
Proof. intros H. unfold _get_files_to_process. now rewrite H. Qed.

Lemma found_files_missing (fs : filesystem) (before after : list path)
      (missing : path) :
  forallb (exists_ fs) before = true ->
  exists_ fs missing = false ->
  snd (found_files fs (before ++ missing :: after)%list)
  = Raise (ClickException ("Path not found: " ++ str_of_path missing)).
Proof.
  induction before as [|p before IH]; simpl; intros Hall Hmiss.
  - now rewrite Hmiss.
  - apply andb_true_iff in Hall. destruct Hall as [Hp Hall].
    rewrite Hp. simpl. specialize (IH Hall Hmiss).
    destruct (found_files fs (before ++ missing :: after)%list) as [log r].
    simpl in IH. now subst r.
Qed.

(** X23. When one of the configured paths does not exist,
    [_get_files_to_process] raises [click.ClickException] naming the
    first such path, whatever the other paths hold. *)
Theorem missing_path_is_reported (fs : filesystem) (settings : Settings)
        (before after : list path) (missing : path) :
  match settings_path settings with
  | OnePath p => [p]
  | PathList l => l
  end = (before ++ missing :: after)%list ->
  forallb (exists_ fs) before = true ->
  exists_ fs missing = false ->
  snd (_get_files_to_process fs settings)
  = Raise (ClickException ("Path not found: " ++ str_of_path missing)).
Proof.
  intros Hpaths Hall Hmiss. rewrite (get_files_unfold fs settings _ Hpaths).
  pose proof (found_files_missing fs before after missing Hall Hmiss) as H.
  destruct (found_files fs (before ++ missing :: after)%list) as [log r].
  simpl in H. now subst r.
Qed.

Lemma missing_path_is_reported_witness :
  snd (_get_files_to_process MoreSamples.one_file
         (MoreSamples.settings_for [Samples.readme; Samples.guide]))
  = Raise (ClickException ("Path not found: " ++ str_of_path Samples.guide)).
Proof.
  apply (missing_path_is_reported MoreSamples.one_file
           (MoreSamples.settings_for [Samples.readme; Samples.guide])
           [Samples.readme] [] Samples.guide); reflexivity.
Defined.

(** X24. When the paths exist but every file found is an earlier output
    (or no file is found at all), [_get_files_to_process] does not
    return the empty list: it raises [IndexError], from
    [source_files[0]]. *)
Theorem no_source_file_raises (fs : filesystem) (settings : Settings)
        (paths found : list path) :
  match settings_path settings with
  | OnePath p => [p]
  | PathList l => l
  end = paths ->
  snd (found_files fs paths) = Return found ->
  forallb (fun f => contains "_translated" (name f)) found = true ->
  snd (_get_files_to_process fs settings) = Raise IndexError.
Proof.
  intros Hpaths Hfound Hall. rewrite (get_files_unfold fs settings _ Hpaths).
  destruct (found_files fs paths) as [log r]. simpl in Hfound. subst r.
  assert (Hnone : source_files_of found = []).
  { unfold source_files_of. induction found as [|f found IH]; [reflexivity|].
    simpl in *. apply andb_true_iff in Hall. destruct Hall as [Hf Hall].
    rewrite Hf. simpl. now apply IH. }
  now rewrite Hnone.
Qed.

Lemma no_source_file_raises_witness :
  snd (_get_files_to_process MoreSamples.only_outputs Samples.settings)
  = Raise IndexError.
Proof.
  apply (no_source_file_raises MoreSamples.only_outputs Samples.settings
           [Samples.docs] [Samples.readme_translated]); reflexivity.
Defined.

Lemma is_prefix_refl (p : path) : is_prefix p p = true.
Proof.
  induction p as [|a p IH]; simpl; [reflexivity|].
  now rewrite String.eqb_refl.
Qed.

Lemma filter_all {A} (f : A -> bool) (l : list A) :
  (forall x, In x l -> f x = true) -> filter f l = l.
Proof.
  induction l as [|x l IH]; intros H; simpl; [reflexivity|].
  rewrite (H x (or_introl eq_refl)), IH; [reflexivity|].
  intros y Hy. apply H. now right.
Qed.

Lemma part_in_In (part : string) (p : path) :
  In part p -> part_in part p = true.
Proof.
  intros H. unfold part_in. apply existsb_exists.
  exists part. split; [exact H | apply String.eqb_refl].
Qed.

(** X25. A single existing file whose name holds no ['_translated'] is
    returned as it is: [_get_files_to_process] returns the list of that
    one file (the common path part is then the file itself, which the
    log shows as a dot). *)
Theorem single_file_is_returned (fs : filesystem) (settings : Settings)
        (file : path) :
  settings_path settings = OnePath file ->
  exists_ fs file = true ->
  is_file fs file = true ->
  contains "_translated" (name file) = false ->
  _get_files_to_process fs settings
  = ([LogDebug "Found file: %s" (str_of_path file);
      LogInfo "Found %s files to process: %s" ["1"; "."]],
     Return [file]).
Proof.
  intros Hpath Hex Hfile Hname. unfold _get_files_to_process.
  rewrite Hpath. cbn [found_files]. rewrite Hex, Hfile. cbn [negb map app].
  unfold source_files_of. cbn [filter]. rewrite Hname. cbn [negb].
  unfold common_path_part. cbn [bind].
  rewrite filter_all.
  2:{ intros part Hin. cbn [forallb]. now rewrite (part_in_In part file Hin). }
  cbn [mapM].
  assert (Hrel : relative_to file file = Return []).
  { unfold relative_to. destruct file as [|a file]; [reflexivity|].
    rewrite is_prefix_refl. now rewrite skipn_all. }
  rewrite Hrel. reflexivity.
Qed.

Lemma single_file_is_returned_witness :
  _get_files_to_process MoreSamples.one_file
    {| settings_path := OnePath Samples.readme;
       ignore_cache := false; new_file := true; overwrite := false;
       save_temp_on_complete := false |}
  = ([LogDebug "Found file: %s" (str_of_path Samples.readme);
      LogInfo "Found %s files to process: %s" ["1"; "."]],
     Return [Samples.readme]).
Proof.
  apply (single_file_is_returned MoreSamples.one_file
           {| settings_path := OnePath Samples.readme;
              ignore_cache := false; new_file := true; overwrite := false;
              save_temp_on_complete := false |}
           Samples.readme); reflexivity.
Defined.

Lemma found_files_all_exist (fs : filesystem) (paths : list path) :
  forallb (exists_ fs) paths = true ->
  snd (found_files fs paths)
  = Return (flat_map (fun p => if is_file fs p then [p] else glob_md fs p)
                     paths).
Proof.
  induction paths as [|p paths IH]; simpl; intros Hall; [reflexivity|].
  apply andb_true_iff in Hall. destruct Hall as [Hp Hall].
  rewrite Hp. simpl. specialize (IH Hall).
  destruct (found_files fs paths) as [log r]. simpl in IH. now subst r.
Qed.

Lemma found_files_Return_exist (fs : filesystem) (paths found : list path) :
  snd (found_files fs paths) = Return found ->
  forallb (exists_ fs) paths = true.
Proof.
  revert found; induction paths as [|p paths IH]; simpl; intros found H;
    [reflexivity|].
  destruct (exists_ fs p); simpl in *; [|discriminate H].
  destruct (found_files fs paths) as [log [more|e]]; simpl in H;
    [|discriminate H].
  now apply (IH more).
Qed.

(** X26. Whenever [_get_files_to_process] returns, every configured path
    exists and the list returned is, in order, the files discovered (a
    configured file itself, the markdown files globbed under a
    configured directory) without those whose name holds
    ['_translated']; no other file is dropped or added. *)
Theorem returned_files_are_the_sources (fs : filesystem) (settings : Settings)
        (paths files : list path) :
  match settings_path settings with
  | OnePath p => [p]
  | PathList l => l
  end = paths ->
  snd (_get_files_to_process fs settings) = Return files ->
  forallb (exists_ fs) paths = true
  /\ files
     = filter (fun f => negb (contains "_translated" (name f)))
              (flat_map (fun p => if is_file fs p then [p] else glob_md fs p)
                        paths).
Proof.
  intros Hpaths. rewrite (get_files_unfold fs settings _ Hpaths).
  destruct (found_files fs paths) as [log [found|e]] eqn:Hfound;
    [|discriminate].
  assert (Hex : forallb (exists_ fs) paths = true).
  { apply (found_files_Return_exist fs paths found). now rewrite Hfound. }
  pose proof (found_files_all_exist fs paths Hex) as Hall.
  rewrite Hfound in Hall. simpl in Hall. inversion Hall; subst found.
  destruct (common <- common_path_part _ ;; mapM _ _) as [shown|e];
    [|discriminate].
  simpl. intros H. inversion H. split; [exact Hex | reflexivity].
Qed.

Lemma returned_files_are_the_sources_witness :
  forallb (exists_ Samples.fs) [Samples.docs] = true
  /\ [Samples.readme; Samples.guide]
     = filter (fun f => negb (contains "_translated" (name f)))
              (flat_map (fun p => if is_file Samples.fs p then [p]
                                  else glob_md Samples.fs p)
                        [Samples.docs]).
Proof.
  apply (returned_files_are_the_sources Samples.fs Samples.settings
           [Samples.docs] [Samples.readme; Samples.guide]); reflexivity.
Defined.

(** *** The run *)

Lemma process_files_written
      {document provider : Type} (W : collaborators document provider)
      (settings : Settings) (files : list path) (f : path) :
  In (DocumentWritten f) (fst (process_files W settings files)) -> In f files.
Proof.
  induction files as [|file files IH]; simpl; [tauto|].
  destruct (process_file W settings file) as [log [r|e]] eqn:Hfile.
  - destruct (process_files W settings files) as [log' r']. simpl in *.
    intros H. apply in_app_or in H. destruct H as [H|H].
    + left. symmetry. apply (process_file_written W settings file f).
      now rewrite Hfile.
    + right. now apply IH.
  - simpl. intros H. left. symmetry.
    apply (process_file_written W settings file f). now rewrite Hfile.
Qed.

Lemma found_files_log (fs : filesystem) (paths : list path) (ev : event) :
  In ev (fst (found_files fs paths)) -> is_written ev = false.
Proof.
  induction paths as [|p paths IH]; simpl; [tauto|].
  destruct (negb (exists_ fs p)); simpl; [tauto|].
  destruct (found_files fs paths) as [log [more|e]]; simpl in *;
    intros H; apply in_app_or in H; destruct H as [H|H]; auto;
    apply in_map_iff in H; destruct H as [x [Hx _]]; now subst ev.
Qed.

(** X27. In a run of [run_single_process], [document.write] is only ever
    called on a document loaded from one of the files
    [_get_files_to_process] returned, a file whose name holds no
    ['_translated'], whatever the file system and the collaborators do:
    a document loaded from an earlier output is never written. Where
    the write puts its output is the document's matter and is not
    stated. *)
Theorem run_writes_only_loaded_sources
        {document provider : Type} (fs : filesystem)
        (W : collaborators document provider) (settings : Settings)
        (made : outcome unit) (f : path) :
  In (DocumentWritten f) (fst (run_single_process fs W settings made)) ->
  contains "_translated" (name f) = false
  /\ exists files,
       snd (_get_files_to_process fs settings) = Return files /\ In f files.
Proof.
  unfold run_single_process.
  pose proof (get_files_unfold fs settings _ eq_refl) as Hunfold.
  set (paths := match settings_path settings with
                | OnePath p => [p]
                | PathList l => l
                end) in Hunfold.
  assert (Hlog : forall ev, In ev (fst (_get_files_to_process fs settings)) ->
                            is_written ev = false).
  { rewrite Hunfold. intros ev.
    destruct (found_files fs paths) as [log [found|e]] eqn:Hfound;
      [|intros H; apply (found_files_log fs paths ev); now rewrite Hfound].
    destruct (common <- common_path_part _ ;; mapM _ _) as [shown|e];
      simpl; intros H.
    - apply in_app_or in H. destruct H as [H|[H|[]]];
        [|now subst ev].
      apply (found_files_log fs paths ev). now rewrite Hfound.
    - apply (found_files_log fs paths ev). now rewrite Hfound. }
  assert (Hsound : forall files,
             snd (_get_files_to_process fs settings) = Return files ->
             forall g, In g files -> contains "_translated" (name g) = false).
  { rewrite Hunfold. intros files.
    destruct (found_files fs paths) as [log [found|e]]; [|discriminate].
    destruct (common <- common_path_part _ ;; mapM _ _) as [shown|e];
      [|discriminate].
    simpl. intros H g Hg. inversion H; subst files.
    now apply ApplicationFacts.source_files_of_sound in Hg. }
  clear Hunfold.
  destruct (_get_files_to_process fs settings) as [log [files|e]];
    simpl in *.
  - destruct made as [u|e].
    + destruct (process_files W settings files) as [log' r] eqn:Hrun.
      simpl. intros H. apply in_app_or in H. destruct H as [H|H].
      * apply Hlog in H. discriminate H.
      * assert (Hin : In f files).
        { apply (process_files_written W settings files f). now rewrite Hrun. }
        split; [now apply (Hsound files eq_refl) | eauto].
    + simpl. intros H. apply Hlog in H. discriminate H.
  - intros H. apply Hlog in H. discriminate H.
Qed.

Lemma run_writes_only_loaded_sources_witness :
  contains "_translated" (name Samples.guide) = false
  /\ exists files,
       snd (_get_files_to_process Samples.fs Samples.settings) = Return files
       /\ In Samples.guide files.
Proof.
  apply (run_writes_only_loaded_sources Samples.fs MoreSamples.working
           Samples.settings (Return tt) Samples.guide).
  vm_compute. do 14 right. left. reflexivity.
Defined.

End RunFacts.
